(** * Satellite telemetry API: the record store, its validation, query and
      pagination contract.

    Shallow embedding of [db/models.py] and [app/routers/telemetry.py].

    - A table row is a record; the [telemetry] table is the list of its rows
      in rowid order (an INSERT appends).
    - [datetime] values are instants on the time line, counted in
      microseconds; [float] values are IEEE-754 binary64 values, taken from
      the Standard Library's [spec_float] so that zero, negative zero,
      infinities and NaN are all there and comparisons are the IEEE ones.
    - [datetime.utcnow] is a clock that the state carries: the n-th call
      returns [clock n].
    - A handler is a function from the state to a response and a new state;
      an exception (HTTPException, a pydantic validation error, an uncaught
      database error) is a constructor of the response type. *)

From Stdlib Require Import ZArith List String Ascii Bool Lia.
From Stdlib Require Import Permutation Sorted.
From Stdlib Require Import Floats.SpecFloat.
From Stdlib Require Import DecimalString DecimalNat.
Import ListNotations.

Open Scope string_scope.
Open Scope Z_scope.

(* ================================================================= *)
(** ** Scalars *)

Definition datetime := Z.

Definition float := spec_float.

(** The literal [0] of the Field constraints and of the CHECK constraints. *)
Definition float_zero : float := S754_zero false.

(** Python and SQL comparisons on floats: [x > y], [x >= y], [x <= y]. *)
Definition float_gt (x y : float) : bool := SFltb y x.
Definition float_ge (x y : float) : bool := SFleb y x.
Definition float_le (x y : float) : bool := SFleb x y.


Definition float_is_nan (x : float) : bool :=
  match x with
  | S754_nan => true
  | _ => false
  end.

(** [len(s)] of a Python str, [length(s)] of SQLite. *)
Definition len (s : string) : Z := Z.of_nat (String.length s).

(** Truthiness of a Python str: the empty string is falsy. *)
Definition str_truthy (s : string) : bool :=
  match s with
  | EmptyString => false
  | String _ _ => true
  end.

(* ================================================================= *)
(** ** db/models.py *)

(** [class TelemetryStatus(str, Enum)] *)
Inductive TelemetryStatus : Type :=
| HEALTHY
| CRITICAL.

Definition TelemetryStatus_value (s : TelemetryStatus) : string :=
  match s with
  | HEALTHY => "healthy"
  | CRITICAL => "critical"
  end.

Definition TelemetryStatus_eqb (a b : TelemetryStatus) : bool :=
  match a, b with
  | HEALTHY, HEALTHY => true
  | CRITICAL, CRITICAL => true
  | _, _ => false
  end.

(** [class Telemetry(Base)]: one row of the table. *)
Module Telemetry.
Record t : Type := mk {
    id : Z;
    satelliteId : string;
    timestamp : datetime;
    altitude : float;
    velocity : float;
    status : TelemetryStatus;
    created : datetime;
    updated : datetime
}.
End Telemetry.

(** [__table_args__]: the three CHECK constraints, each with its name. A
    CHECK fails when its expression is false, and passes when it is true or
    NULL; sqlite3 binds a NaN as NULL, so the comparison of a NaN with 0 is
    NULL and the CHECK passes. *)
Definition check_satelliteid_length (r : Telemetry.t) : bool :=
  len (Telemetry.satelliteId r) <=? 64.

Definition check_altitude_positive (r : Telemetry.t) : bool :=
  float_ge (Telemetry.altitude r) float_zero
  || float_is_nan (Telemetry.altitude r).

Definition check_velocity_positive (r : Telemetry.t) : bool :=
  float_ge (Telemetry.velocity r) float_zero
  || float_is_nan (Telemetry.velocity r).

Definition table_args : list (string * (Telemetry.t -> bool)) :=
  [ ("check_satelliteid_length", check_satelliteid_length);
    ("check_altitude_positive", check_altitude_positive);
    ("check_velocity_positive", check_velocity_positive) ].

(** The name of the first CHECK constraint a row violates, if any. *)
Fixpoint violated_constraint
    (cs : list (string * (Telemetry.t -> bool))) (r : Telemetry.t)
    : option string :=
  match cs with
  | [] => None
  | (name, holds) :: cs' =>
      if holds r then violated_constraint cs' r else Some name
  end.

(* ================================================================= *)
(** ** app/routers/telemetry.py: the pydantic models *)

(** [class TelemetryCreate(BaseModel)]: a request body whose fields have
    been read at their declared types; the Field constraints are checked by
    [TelemetryCreate_validate]. *)
Module TelemetryCreate.
Record t : Type := mk {
    satelliteId : string;
    timestamp : datetime;
    altitude : float;
    velocity : float;
    status : TelemetryStatus
}.
End TelemetryCreate.

(** One entry of a 422 response: the field and the kind of failure. *)
Record ErrorDetail : Type := mkError {
  loc : string;
  err_type : string
}.

(** [max_length=64] on satelliteId, [gt=0] on altitude and on velocity.
    Every violated constraint is reported, in field order. *)
Definition TelemetryCreate_validate (p : TelemetryCreate.t) : list ErrorDetail :=
  (if len (TelemetryCreate.satelliteId p) <=? 64 then []
   else [mkError "satelliteId" "string_too_long"])
  ++ (if float_gt (TelemetryCreate.altitude p) float_zero then []
      else [mkError "altitude" "greater_than"])
  ++ (if float_gt (TelemetryCreate.velocity p) float_zero then []
      else [mkError "velocity" "greater_than"]).

(** [class DeleteResponse(BaseModel)] *)
Module DeleteResponse.
Record t : Type := mk {
    id : Z;
    message : string
}.
End DeleteResponse.

(* ================================================================= *)
(** ** Responses and state *)

Inductive Response (A : Type) : Type :=
| Ok200 (body : A)
| HTTPException (status_code : Z) (detail : string)
| RequestValidationError (errors : list ErrorDetail)
| IntegrityError (constraint_name : string)
| InvalidRequestError
| OverflowError.

Arguments Ok200 {A} body.
Arguments HTTPException {A} status_code detail.
Arguments RequestValidationError {A} errors.
Arguments IntegrityError {A} constraint_name.
Arguments InvalidRequestError {A}.
Arguments OverflowError {A}.

(** The status the exception handlers answer a response with. A validation
    error is sent with this status when its body can be rendered; see
    [validation_error_status]. *)
Definition status_code_of {A : Type} (r : Response A) : Z :=
  match r with
  | Ok200 _ => 200
  | HTTPException c _ => c
  | RequestValidationError _ => 422
  | IntegrityError _ => 500
  | InvalidRequestError => 500
  | OverflowError => 500
  end.

Record State : Type := mkState {
  rows : list Telemetry.t;
  clock : nat -> datetime;
  reads : nat
}.

(** A handler: state in, response and state out. *)
Definition M (A : Type) : Type := State -> Response A * State.

Definition ret {A : Type} (a : A) : M A := fun s => (Ok200 a, s).

Definition raise {A B : Type} (e : Response A) : Response B :=
  match e with
  | Ok200 _ => InvalidRequestError
  | HTTPException c d => HTTPException c d
  | RequestValidationError es => RequestValidationError es
  | IntegrityError n => IntegrityError n
  | InvalidRequestError => InvalidRequestError
  | OverflowError => OverflowError
  end.

Definition bind {A B : Type} (m : M A) (k : A -> M B) : M B :=
  fun s =>
    match m s with
    | (Ok200 a, s') => k a s'
    | (e, s') => (raise e, s')
    end.

Declare Scope handler_scope.
Delimit Scope handler_scope with handler.
Notation "x <- m ;; k" := (bind m (fun x => k))
  (at level 100, m at next level, right associativity) : handler_scope.
Open Scope handler_scope.

(** [datetime.utcnow()] *)
Definition utcnow : M datetime :=
  fun s => (Ok200 (clock s (reads s)),
            mkState (rows s) (clock s) (S (reads s))).

(* ================================================================= *)
(** ** The telemetry table *)

(** The rowid SQLite gives an INSERT into a table whose primary key is
    [INTEGER PRIMARY KEY]: 1 on an empty table, one more than the largest
    rowid otherwise. *)
Definition next_id (t : list Telemetry.t) : Z :=
  match map Telemetry.id t with
  | [] => 1
  | i :: rest => 1 + fold_left Z.max rest i
  end.

(** A row under construction, the [Telemetry] object built from the body's
    [model_dump]: the five fields of the body; id, created and updated are still unset and are
    filled in by the INSERT. *)
Definition model_dump (telemetry : TelemetryCreate.t) : TelemetryCreate.t :=
  telemetry.

(** The INSERT a [db.add(obj); db.commit()] flushes. The column defaults of
    [created] and of [updated] are two calls of [datetime.utcnow], in column
    order; [timestamp] and [status] are given, so their defaults are not
    used. A violated CHECK constraint aborts the statement and leaves the
    table as it was. *)
Definition add_commit (obj : TelemetryCreate.t) : M Z :=
  created <- utcnow ;;
  updated <- utcnow ;;
  fun s =>
    let row := Telemetry.mk (next_id (rows s))
                 (TelemetryCreate.satelliteId obj)
                 (TelemetryCreate.timestamp obj)
                 (TelemetryCreate.altitude obj)
                 (TelemetryCreate.velocity obj)
                 (TelemetryCreate.status obj)
                 created updated in
    match violated_constraint table_args row with
    | Some name => (IntegrityError name, s)
    | None =>
        (Ok200 (Telemetry.id row),
         mkState (rows s ++ [row]) (clock s) (reads s))
    end.

(** [db.refresh(obj)]: the row is read again by its primary key. *)
Definition refresh (pk : Z) : M Telemetry.t :=
  fun s =>
    match find (fun r => Telemetry.id r =? pk) (rows s) with
    | Some r => (Ok200 r, s)
    | None => (InvalidRequestError, s)
    end.

(** [db.commit()] after a statement that has already run. *)
Definition commit : M unit := ret tt.

(** A [Query]: a description of a SELECT, not its rows. *)
Record Query : Type := mkQuery {
  criteria : Telemetry.t -> bool;
  timestamp_desc : bool
}.

(** [db.query(Telemetry)] *)
Definition db_query : Query := mkQuery (fun _ => true) false.

(** [query.filter(c)]: the criteria are joined by AND. *)
Definition query_filter (q : Query) (c : Telemetry.t -> bool) : Query :=
  mkQuery (fun r => criteria q r && c r) (timestamp_desc q).

(** [query.order_by(Telemetry.timestamp.desc())] *)
Definition order_by_timestamp_desc (q : Query) : Query :=
  mkQuery (criteria q) true.

(** ORDER BY timestamp DESC over rows met in scan order: a row goes in front
    of the first row whose timestamp is not later than its own, so rows with
    equal timestamps keep their scan order. *)
Fixpoint insert_desc (x : Telemetry.t) (l : list Telemetry.t)
    : list Telemetry.t :=
  match l with
  | [] => [x]
  | y :: l' =>
      if Telemetry.timestamp y <=? Telemetry.timestamp x
      then x :: y :: l'
      else y :: insert_desc x l'
  end.

Fixpoint sort_desc (l : list Telemetry.t) : list Telemetry.t :=
  match l with
  | [] => []
  | x :: l' => insert_desc x (sort_desc l')
  end.

(** The rows a query selects from a table. *)
Definition fetch (q : Query) (t : list Telemetry.t) : list Telemetry.t :=
  let selected := filter (criteria q) t in
  if timestamp_desc q then sort_desc selected else selected.

(** [query.first()] *)
Definition first (q : Query) : M (option Telemetry.t) :=
  fun s => (Ok200 (hd_error (fetch q (rows s))), s).

(** [query.delete()]: removes the selected rows, returns how many. *)
Definition query_delete (q : Query) : M Z :=
  fun s =>
    (Ok200 (Z.of_nat (List.length (filter (criteria q) (rows s)))),
     mkState (filter (fun r => negb (criteria q r)) (rows s))
             (clock s) (reads s)).

(** Column comparisons of the filters. *)
Definition id_eq (id : Z) (r : Telemetry.t) : bool :=
  Telemetry.id r =? id.

(** [Telemetry.satelliteId == satelliteId]; against None the comparison
    selects the rows whose column is NULL, and no row has one. *)
Definition satelliteId_eq (satelliteId : option string) (r : Telemetry.t)
    : bool :=
  match satelliteId with
  | Some v => String.eqb (Telemetry.satelliteId r) v
  | None => false
  end.

Definition status_eq (status : option TelemetryStatus) (r : Telemetry.t)
    : bool :=
  match status with
  | Some v => TelemetryStatus_eqb (Telemetry.status r) v
  | None => false
  end.

(** Truthiness of the two optional query parameters: None is falsy, a str
    is truthy when it is not empty, and a member of a str-mixed Enum is
    truthy when its value is. *)
Definition truthy_str (o : option string) : bool :=
  match o with
  | Some v => str_truthy v
  | None => false
  end.

Definition truthy_status (o : option TelemetryStatus) : bool :=
  match o with
  | Some v => str_truthy (TelemetryStatus_value v)
  | None => false
  end.

(* ================================================================= *)
(** ** Pagination *)

Module Params.
Record t : Type := mk {
    page : Z;
    size : Z
}.
End Params.

Module Page.
Record t : Type := mk {
    items : list Telemetry.t;
    total : Z;
    page : Z;
    size : Z
}.
End Page.

(** Modelled from the spec: the bounds of the pagination parameters are
    those of the fastapi_pagination package, which is not part of the
    sources; page is at least 1 and size is between 1 and the cap of 100. *)
Definition Params_valid (p : Params.t) : bool :=
  (1 <=? Params.page p) && (1 <=? Params.size p) && (Params.size p <=? 100).

(** Modelled from the spec: [paginate] is a function of the
    fastapi_pagination package, which is not part of the sources. It counts
    the rows the query selects and fetches [size] of them after skipping
    the [page - 1] pages before, both on the same table, and echoes page and
    size. *)
Definition paginate (query : Query) (params : Params.t) : M Page.t :=
  fun s =>
    let result := fetch query (rows s) in
    let offset := (Params.page params - 1) * Params.size params in
    (Ok200 (Page.mk
              (firstn (Z.to_nat (Params.size params))
                      (skipn (Z.to_nat offset) result))
              (Z.of_nat (List.length result))
              (Params.page params)
              (Params.size params)),
     s).

(* ================================================================= *)
(** ** app/routers/telemetry.py: the endpoints

    The response model [TelemetryResponse] has the eight columns of a row,
    each under its own name, so a handler's row is its response body. *)

(** [GET /telemetry] *)
Definition list_satellites
    (satelliteId : option string) (status : option TelemetryStatus)
    (params : Params.t) : M Page.t :=
  let query := db_query in
  let query :=
    if truthy_str satelliteId && truthy_status status then
      query_filter query
        (fun r => satelliteId_eq satelliteId r && status_eq status r)
    else if truthy_str satelliteId then
      query_filter query (satelliteId_eq satelliteId)
    else if truthy_status status then
      query_filter query (status_eq status)
    else query in
  let query := order_by_timestamp_desc query in
  paginate query params.

(** [POST /telemetry], the handler: it is given a validated body. *)
Definition create_telemetry (telemetry : TelemetryCreate.t)
    : M Telemetry.t :=
  let db_telemetry := model_dump telemetry in
  pk <- add_commit db_telemetry ;;
  refresh pk.

(** [POST /telemetry], the route: the body is validated against
    [TelemetryCreate] before the handler runs, and a body that fails
    raises the validation error and the handler is not called. *)
Definition post_telemetry (body : TelemetryCreate.t) : M Telemetry.t :=
  match TelemetryCreate_validate body with
  | [] => create_telemetry body
  | errors => fun s => (RequestValidationError errors, s)
  end.

(** [GET /telemetry/{id}], the handler, on an id that sqlite3 can bind;
    [get_telemetry_route] is the route on every integer. *)
Definition get_telemetry (id : Z) : M Telemetry.t :=
  telemetry <- first (query_filter db_query (id_eq id)) ;;
  match telemetry with
  | None => fun s => (HTTPException 404 "Telemetry record not found", s)
  | Some row => ret row
  end.

(** [DELETE /telemetry/{id}], the handler, on an id that sqlite3 can bind;
    [delete_telemetry_route] is the route on every integer. *)
Definition delete_telemetry (id : Z) : M DeleteResponse.t :=
  rows_deleted <- query_delete (query_filter db_query (id_eq id)) ;;
  _ <- commit ;;
  if rows_deleted =? 0
  then fun s => (HTTPException 404 "Telemetry record not found", s)
  else ret (DeleteResponse.mk id "Telemetry record deleted successfully").






(* ================================================================= *)
(** ** Notions the properties are stated with *)

(** The row an INSERT of [body] writes into state [s]. *)
Definition inserted_row (body : TelemetryCreate.t) (s : State)
    : Telemetry.t :=
  Telemetry.mk (next_id (rows s))
    (TelemetryCreate.satelliteId body)
    (TelemetryCreate.timestamp body)
    (TelemetryCreate.altitude body)
    (TelemetryCreate.velocity body)
    (TelemetryCreate.status body)
    (clock s (reads s)) (clock s (S (reads s))).

(** The query [list_satellites] has built when it calls [paginate]. *)
Definition list_query
    (satelliteId : option string) (status : option TelemetryStatus)
    : Query :=
  let query := db_query in
  let query :=
    if truthy_str satelliteId && truthy_status status then
      query_filter query
        (fun r => satelliteId_eq satelliteId r && status_eq status r)
    else if truthy_str satelliteId then
      query_filter query (satelliteId_eq satelliteId)
    else if truthy_status status then
      query_filter query (status_eq status)
    else query in
  order_by_timestamp_desc query.

(** The ordered, filtered result sequence the pages are cut from. *)
Definition result_sequence
    (satelliteId : option string) (status : option TelemetryStatus)
    (t : list Telemetry.t) : list Telemetry.t :=
  fetch (list_query satelliteId status) t.

(** The filter contract, in the words of the query engine: an equality on
    each field whose parameter is present, joined by AND; a satelliteId
    parameter that is the empty string counts as absent. *)
Definition satelliteId_matches (satelliteId : option string)
    (r : Telemetry.t) : bool :=
  match satelliteId with
  | None => true
  | Some EmptyString => true
  | Some v => String.eqb (Telemetry.satelliteId r) v
  end.

Definition status_matches (status : option TelemetryStatus)
    (r : Telemetry.t) : bool :=
  match status with
  | None => true
  | Some v => TelemetryStatus_eqb (Telemetry.status r) v
  end.

Definition filter_matches
    (satelliteId : option string) (status : option TelemetryStatus)
    (r : Telemetry.t) : bool :=
  satelliteId_matches satelliteId r && status_matches status r.

(** [selected satelliteId status r]: the row meets every filter that is
    applied. A satelliteId filter is applied when the parameter is present
    and not the empty string, a status filter when the parameter is
    present. *)
Definition selected
    (satelliteId : option string) (status : option TelemetryStatus)
    (r : Telemetry.t) : Prop :=
  (forall v, satelliteId = Some v -> v <> "" ->
             Telemetry.satelliteId r = v) /\
  (forall v, status = Some v -> Telemetry.status r = v).

(** [desc a b]: row [a] may stand before row [b]. *)
Definition desc (a b : Telemetry.t) : Prop :=
  Telemetry.timestamp b <= Telemetry.timestamp a.

(** [present i t]: the table has a row whose id is [i]. *)
Definition present (i : Z) (t : list Telemetry.t) : Prop :=
  exists r, In r t /\ Telemetry.id r = i.

(** The slice [[lo, hi)] of a sequence, in the words of the pagination
    contract: the elements at the indices from [lo] up to, not including,
    [hi], those that exist, in order. *)
Definition pick (l : list Telemetry.t) (k : nat) : list Telemetry.t :=
  match nth_error l k with
  | Some x => [x]
  | None => []
  end.

Definition slice (lo hi : nat) (l : list Telemetry.t) : list Telemetry.t :=
  flat_map (pick l) (seq lo (hi - lo)).

(** The four routes of the router. There is no route that updates a row. *)
Inductive Request : Type :=
| POST (body : TelemetryCreate.t)
| LIST (satelliteId : option string) (status : option TelemetryStatus)
       (params : Params.t)
| GET (id : Z)
| DELETE (id : Z).

(** The state a request leaves. *)
Definition handle (req : Request) (s : State) : State :=
  match req with
  | POST body => snd (post_telemetry body s)
  | LIST satelliteId status params =>
      snd (list_satellites satelliteId status params s)
  | GET id => snd (get_telemetry id s)
  | DELETE id => snd (delete_telemetry id s)
  end.

(** The states the API reaches from [s0]. *)
Inductive reachable (s0 : State) : State -> Prop :=
| reachable_init : reachable s0 s0
| reachable_step (s : State) (req : Request) :
    reachable s0 s -> reachable s0 (handle req s).

(** The state a run of POSTs leaves. *)
Definition post_all (bodies : list TelemetryCreate.t) (s : State) : State :=
  fold_left (fun s body => snd (post_telemetry body s)) bodies s.

(* ================================================================= *)
(** ** Sample data *)

(** The binary64 value of an integer, and of a quotient of two. *)
Definition float_of_Z (z : Z) : float := binary_normalize 53 1024 z 0 false.

Definition float_ratio (n d : Z) : float :=
  SFdiv 53 1024 (float_of_Z n) (float_of_Z d).

(** The body of the example of the API documentation. *)
Definition body_example : TelemetryCreate.t :=
  Eval vm_compute in
  TelemetryCreate.mk "sattelite-1" 1771063200000000
    (float_of_Z 550) (float_ratio 76 10) HEALTHY.

(** A database with no rows, whose clock advances by one at each reading. *)
Definition empty_db : State := mkState [] (fun n => Z.of_nat n) 0.

(** A database with no rows, whose clock stands still. *)
Definition frozen_db : State := mkState [] (fun _ => 0) 0.

(** A body with altitude zero, and one with a negative velocity. *)
Definition body_zero_altitude : TelemetryCreate.t :=
  Eval vm_compute in
  TelemetryCreate.mk "sattelite-1" 1771063200000000
    (float_of_Z 0) (float_ratio 76 10) HEALTHY.

Definition body_negative_velocity : TelemetryCreate.t :=
  Eval vm_compute in
  TelemetryCreate.mk "sattelite-1" 1771063200000000
    (float_of_Z 550) (float_ratio (-72) 10) HEALTHY.



(** 64 and 65 times the letter S, and no letter at all. *)
Fixpoint repeat_char (c : ascii) (n : nat) : string :=
  match n with
  | O => EmptyString
  | S n' => String c (repeat_char c n')
  end.

Definition body_with_id (satelliteId : string) : TelemetryCreate.t :=
  TelemetryCreate.mk satelliteId 1771063200000000
    (float_of_Z 550) (float_ratio 76 10) HEALTHY.

Definition body_id_64 : TelemetryCreate.t :=
  Eval vm_compute in body_with_id (repeat_char "S" 64).

Definition body_id_65 : TelemetryCreate.t :=
  Eval vm_compute in body_with_id (repeat_char "S" 65).

Definition body_id_empty : TelemetryCreate.t :=
  Eval vm_compute in body_with_id "".

(** Five records an hour apart, as the pagination tests create them. *)
Definition body_numbered (i : Z) : TelemetryCreate.t :=
  TelemetryCreate.mk
    (String.append "SAT-00" (String (ascii_of_nat (48 + Z.to_nat i)) ""))
    (1771063200000000 + i * 3600000000)
    (float_of_Z (500 + i * 100))
    (float_ratio (70 + i) 10)
    HEALTHY.

Definition db_five : State :=
  Eval vm_compute in
  post_all (map body_numbered [0; 1; 2; 3; 4]) empty_db.

(** Two records of one satellite with different status and one record of
    another satellite, as the filter tests create them. *)
Definition body_of (satelliteId : string) (hour : Z)
    (status : TelemetryStatus) : TelemetryCreate.t :=
  TelemetryCreate.mk satelliteId
    (1771027200000000 + hour * 3600000000)
    (float_of_Z 550) (float_ratio 76 10) status.

Definition db_three : State :=
  Eval vm_compute in
  post_all [ body_of "SAT-001" 10 HEALTHY;
             body_of "SAT-001" 12 CRITICAL;
             body_of "SAT-002" 11 CRITICAL ] empty_db.

(** Two records with one timestamp between two others. *)
Definition db_ties : State :=
  Eval vm_compute in
  post_all [ body_of "SAT-A" 10 HEALTHY;
             body_of "SAT-B" 12 HEALTHY;
             body_of "SAT-C" 12 CRITICAL;
             body_of "SAT-D" 14 HEALTHY ] empty_db.

(* ================================================================= *)
(** ** The routes as FastAPI serves them

    A handler is called after FastAPI has read the request against the
    handler's signature: the body of a POST against [TelemetryCreate], the
    query parameters of the list against their [Query] declarations. *)

(** A field of a JSON body, as pydantic meets it: absent; holding a JSON
    value that cannot be read at the declared type; or read at that type.
    For a value that cannot be read, pydantic reports an error whose type
    depends on the value (for a timestamp, [datetime_from_date_parsing] for
    a string that is no date, [datetime_type] for a value of another JSON
    type), so the type comes with the value, as does whether the value can
    be rendered as JSON with [allow_nan=False]. *)
Inductive JsonField (A : Type) : Type :=
| Missing
| Invalid (error_type : string) (renders : bool)
| Valid (a : A).

Arguments Missing {A}.
Arguments Invalid {A} error_type renders.
Arguments Valid {A} a.

(** The JSON body of a POST. A status is a JSON string here; it becomes a
    [TelemetryStatus] by [TelemetryStatus_of_string]. *)
Module Body.
Record t : Type := mk {
    satelliteId : JsonField string;
    timestamp : JsonField datetime;
    altitude : JsonField float;
    velocity : JsonField float;
    status : JsonField string
}.
End Body.

(** [TelemetryStatus(value)]: the member with that value, by exact match. *)
Definition TelemetryStatus_of_string (v : string) : option TelemetryStatus :=
  if String.eqb v "healthy" then Some HEALTHY
  else if String.eqb v "critical" then Some CRITICAL
  else None.

(** The errors of one field: every field is declared with [Field(...)], so
    it is required; a value that is there is checked for its type and then
    against its constraints. *)
Definition field_errors {A : Type} (name : string)
    (constraints : A -> list ErrorDetail) (f : JsonField A)
    : list ErrorDetail :=
  match f with
  | Missing => [mkError name "missing"]
  | Invalid error_type _ => [mkError name error_type]
  | Valid a => constraints a
  end.

(** The errors pydantic reports for a body, in the order of the fields of
    [TelemetryCreate]. *)
Definition body_errors (body : Body.t) : list ErrorDetail :=
  field_errors "satelliteId"
    (fun v => if len v <=? 64 then []
              else [mkError "satelliteId" "string_too_long"])
    (Body.satelliteId body)
  ++ field_errors "timestamp" (fun _ => [])
       (Body.timestamp body)
  ++ field_errors "altitude"
       (fun v => if float_gt v float_zero then []
                 else [mkError "altitude" "greater_than"])
       (Body.altitude body)
  ++ field_errors "velocity"
       (fun v => if float_gt v float_zero then []
                 else [mkError "velocity" "greater_than"])
       (Body.velocity body)
  ++ field_errors "status"
       (fun v => match TelemetryStatus_of_string v with
                 | Some _ => []
                 | None => [mkError "status" "enum"]
                 end)
       (Body.status body).

(** The model a body is read into, when every field can be read. *)
Definition body_model (body : Body.t) : option TelemetryCreate.t :=
  match Body.satelliteId body, Body.timestamp body, Body.altitude body,
        Body.velocity body, Body.status body with
  | Valid sat, Valid ts, Valid alt, Valid vel, Valid st =>
      match TelemetryStatus_of_string st with
      | Some status => Some (TelemetryCreate.mk sat ts alt vel status)
      | None => None
      end
  | _, _, _, _, _ => None
  end.

(** [POST /telemetry] on a JSON body. *)
Definition post_route (body : Body.t) : M Telemetry.t :=
  match body_errors body, body_model body with
  | [], Some telemetry => create_telemetry telemetry
  | errors, _ => fun s => (RequestValidationError errors, s)
  end.







(** The errors of the query parameters of the list: [max_length=64] on
    satelliteId, the enum on status. *)
Definition query_errors (satelliteId status : option string)
    : list ErrorDetail :=
  match satelliteId with
  | Some v => if len v <=? 64 then []
              else [mkError "satelliteId" "string_too_long"]
  | None => []
  end
  ++ match status with
     | Some v => match TelemetryStatus_of_string v with
                 | Some _ => []
                 | None => [mkError "status" "enum"]
                 end
     | None => []
     end.

(** The status parameter the handler is given. *)
Definition query_status (status : option string) : option TelemetryStatus :=
  match status with
  | Some v => TelemetryStatus_of_string v
  | None => None
  end.

(** Modelled from the spec: page and size are declared by the
    fastapi_pagination package, which is not part of the sources; a value
    outside its bounds is rejected with a validation error. *)
Definition params_errors (params : Params.t) : list ErrorDetail :=
  (if 1 <=? Params.page params then []
   else [mkError "page" "greater_than_equal"])
  ++ (if 1 <=? Params.size params then []
      else [mkError "size" "greater_than_equal"])
  ++ (if Params.size params <=? 100 then []
      else [mkError "size" "less_than_equal"]).

(** [GET /telemetry] on its query string. *)
Definition list_route (satelliteId status : option string)
    (params : Params.t) : M Page.t :=
  match (query_errors satelliteId status ++ params_errors params)%list with
  | [] => list_satellites satelliteId (query_status status) params
  | errors => fun s => (RequestValidationError errors, s)
  end.

(** The state a run of requests leaves, each request served in turn. *)
Definition run (reqs : list Request) (s : State) : State :=
  fold_left (fun s req => handle req s) reqs s.

(** Membership of an id in a list of ids. *)
Definition id_in (ids : list Z) (i : Z) : bool :=
  existsb (Z.eqb i) ids.

(* ================================================================= *)
(** ** tests/system_tests/load_test_telemetry.py *)

(** [f"{i:03d}"]: the decimal digits of [i], with zeros in front up to a
    width of three. *)
Definition decimal (i : nat) : string :=
  DecimalString.NilEmpty.string_of_uint (Nat.to_uint i).

Definition format_03d (i : nat) : string :=
  String.append (repeat_char "0" (3 - String.length (decimal i)))
                (decimal i).

(** [int(text)] on a text of decimal digits. *)
Definition int_of_digits (text : string) : option nat :=
  option_map Nat.of_uint (DecimalString.NilEmpty.uint_of_string text).

(** [make_satellite_list(run_id, count)] *)
Definition satellite_name (run_id : string) (i : nat) : string :=
  String.append "LOAD-"
    (String.append run_id (String.append "-SAT-" (format_03d i))).

Definition make_satellite_list (run_id : string) (count : Z)
    : list string :=
  map (satellite_name run_id) (seq 0 (Z.to_nat count)).

(** The kinds of error [build_payload] can plant. *)
Inductive ErrType : Type :=
| negative_velocity
| bad_status
| long_id
| missing_ts
| zero_altitude.

(** What [build_payload] draws: the rounded altitude and velocity, the
    status, the time of the clock, and the kind of error. *)
Record Draw : Type := mkDraw {
  draw_altitude : float;
  draw_velocity : float;
  draw_status : TelemetryStatus;
  draw_ts : datetime;
  draw_err_type : ErrType
}.

(** [abs(x)] and [-x] on floats. *)
Definition float_abs (x : float) : float := SFabs x.
Definition float_neg (x : float) : float := SFopp x.

(** [build_payload(satellite_id, make_invalid)] on given draws. *)
Definition build_payload (satellite_id : string) (make_invalid : bool)
    (d : Draw) : Body.t :=
  let payload :=
    Body.mk (Valid satellite_id) (Valid (draw_ts d))
      (Valid (draw_altitude d)) (Valid (draw_velocity d))
      (Valid (TelemetryStatus_value (draw_status d))) in
  if negb make_invalid then payload
  else
    match draw_err_type d with
    | negative_velocity =>
        Body.mk (Body.satelliteId payload) (Body.timestamp payload)
          (Body.altitude payload)
          (Valid (float_neg (float_abs (draw_velocity d))))
          (Body.status payload)
    | bad_status =>
        Body.mk (Body.satelliteId payload) (Body.timestamp payload)
          (Body.altitude payload) (Body.velocity payload)
          (Valid "unknown_status")
    | long_id =>
        Body.mk
          (Valid (String.append satellite_id
                    (String.append "-" (repeat_char "X" 100))))
          (Body.timestamp payload) (Body.altitude payload)
          (Body.velocity payload) (Body.status payload)
    | missing_ts =>
        Body.mk (Body.satelliteId payload) Missing
          (Body.altitude payload) (Body.velocity payload)
          (Body.status payload)
    | zero_altitude =>
        Body.mk (Body.satelliteId payload) (Body.timestamp payload)
          (Valid (float_of_Z 0)) (Body.velocity payload)
          (Body.status payload)
    end.

(** The bounds of the two uniform draws. *)
Definition altitude_drawn (x : float) : Prop :=
  float_le (float_of_Z 160) x = true /\ float_le x (float_of_Z 35786) = true.

Definition velocity_drawn (x : float) : Prop :=
  float_le (float_ratio 1 2) x = true /\ float_le x (float_of_Z 8) = true.


(** The items of a response of the list: those of the page, and none when
    the body is an error. *)
Definition items_of (r : Response Page.t) : list Telemetry.t :=
  match r with
  | Ok200 pg => Page.items pg
  | _ => []
  end.

(** The loop of [get_items(base_url, params)], run for at most [fuel]
    rounds: it asks for page after page and stops at the first page that is
    shorter than the size. [None] when the rounds run out. *)
Fixpoint get_items_loop (fuel : nat)
    (satelliteId status : option string) (size page : Z)
    (collected : list Telemetry.t) (s : State)
    : option (list Telemetry.t) :=
  match fuel with
  | O => None
  | S fuel' =>
      let r := fst (list_route satelliteId status (Params.mk page size) s) in
      let items := items_of r in
      let collected := (collected ++ items)%list in
      if Z.of_nat (List.length items) <? size then Some collected
      else get_items_loop fuel' satelliteId status size (page + 1)
             collected s
  end.

(** [get_items]: the size is that of the parameters, 50 when they have
    none; the first page asked for is page 1. *)
Definition get_items (fuel : nat) (satelliteId status : option string)
    (size : option Z) (s : State) : option (list Telemetry.t) :=
  let size := match size with Some v => v | None => 50 end in
  get_items_loop fuel satelliteId status size 1 [] s.



(* ================================================================= *)
(** ** Facts on floats *)


Lemma float_gt_zero_ge (x : float) :
  float_gt x float_zero = true -> float_ge x float_zero = true.
Proof.
  unfold float_ge, float_gt, float_zero, SFleb, SFltb.
  destruct x as [sx | sx | | sx m e]; simpl; try congruence;
    destruct sx; simpl; congruence.
Qed.

(** A float is rejected by [gt=0] and passes [>= 0] exactly when it is a
    zero. *)
Lemma float_ge_not_gt_zero (x : float) :
  float_ge x float_zero = true /\ float_gt x float_zero = false <->
  exists sx, x = S754_zero sx.
Proof.
  unfold float_ge, float_gt, float_zero, SFleb, SFltb. split.
  - destruct x as [sx | sx | | sx m e]; simpl.
    + intros _. now exists sx.
    + destruct sx; simpl; intros [H1 H2]; discriminate.
    + intros [H1 _]. discriminate.
    + destruct sx; simpl; intros [H1 H2]; discriminate.
  - intros [sx ->]. simpl. split; reflexivity.
Qed.

(* ================================================================= *)
(** ** Facts on the table *)

Lemma fold_max_ge (l : list Z) (a : Z) :
  a <= fold_left Z.max l a /\ Forall (fun x => x <= fold_left Z.max l a) l.
Proof.
  revert a. induction l as [| x l IH]; intros a; simpl.
  - split; [lia | constructor].
  - destruct (IH (Z.max a x)) as [H1 H2]. split; [lia |].
    constructor; [lia | exact H2].
Qed.

(** The id of the next INSERT is above every id of the table. *)
Lemma next_id_above (t : list Telemetry.t) (r : Telemetry.t) :
  In r t -> Telemetry.id r < next_id t.
Proof.
  unfold next_id. intros Hin. apply (in_map Telemetry.id) in Hin.
  destruct (map Telemetry.id t) as [| i rest]; [contradiction |].
  destruct (fold_max_ge rest i) as [H1 H2].
  destruct Hin as [<- | Hin]; [lia |].
  rewrite Forall_forall in H2. specialize (H2 _ Hin). lia.
Qed.

Lemma find_id_app_new (t : list Telemetry.t) (row : Telemetry.t) :
  (forall r, In r t -> Telemetry.id r <> Telemetry.id row) ->
  find (fun r => Telemetry.id r =? Telemetry.id row) (t ++ [row]) = Some row.
Proof.
  induction t as [| x t IH]; intros Hne; simpl.
  - now rewrite Z.eqb_refl.
  - destruct (Z.eqb_spec (Telemetry.id x) (Telemetry.id row)) as [E | _].
    + exfalso. apply (Hne x); [now left | exact E].
    + apply IH. intros r Hr. apply Hne. now right.
Qed.

Lemma find_id_app_old (t : list Telemetry.t) (row r : Telemetry.t) (i : Z) :
  find (fun x => Telemetry.id x =? i) t = Some r ->
  find (fun x => Telemetry.id x =? i) (t ++ [row]) = Some r.
Proof.
  induction t as [| x t IH]; simpl; [discriminate |].
  destruct (Telemetry.id x =? i); [trivial | exact IH].
Qed.

Lemma filter_true_id (t : list Telemetry.t) (c : Telemetry.t -> bool) :
  filter (fun r => true && c r) t = filter c t.
Proof. apply filter_ext. intros r. reflexivity. Qed.

Lemma hd_filter_find (t : list Telemetry.t) (c : Telemetry.t -> bool) :
  hd_error (filter c t) = find c t.
Proof.
  induction t as [| x t IH]; simpl; [reflexivity |].
  destruct (c x); [reflexivity | exact IH].
Qed.

(** What [GET /telemetry/{id}] computes, in one step. *)
Lemma get_telemetry_find (i : Z) (s : State) :
  get_telemetry i s =
  match find (fun r => Telemetry.id r =? i) (rows s) with
  | Some r => (Ok200 r, s)
  | None => (HTTPException 404 "Telemetry record not found", s)
  end.
Proof.
  unfold get_telemetry, bind, first, fetch, query_filter, db_query, id_eq.
  cbn [criteria timestamp_desc]. rewrite filter_true_id, hd_filter_find.
  destruct (find _ (rows s)); reflexivity.
Qed.

Lemma validate_nil (body : TelemetryCreate.t) :
  TelemetryCreate_validate body = [] <->
  len (TelemetryCreate.satelliteId body) <= 64 /\
  float_gt (TelemetryCreate.altitude body) float_zero = true /\
  float_gt (TelemetryCreate.velocity body) float_zero = true.
Proof.
  unfold TelemetryCreate_validate.
  destruct (Z.leb_spec (len (TelemetryCreate.satelliteId body)) 64);
    destruct (float_gt (TelemetryCreate.altitude body) float_zero);
    destruct (float_gt (TelemetryCreate.velocity body) float_zero);
    simpl; split; try discriminate; try (intuition (lia || congruence)).
Qed.

(** A row that passes the Field constraints passes the CHECK constraints. *)
Lemma valid_no_violation (body : TelemetryCreate.t) (s : State) :
  TelemetryCreate_validate body = [] ->
  violated_constraint table_args (inserted_row body s) = None.
Proof.
  rewrite validate_nil. intros (Hlen & Halt & Hvel).
  unfold table_args, violated_constraint, check_satelliteid_length,
    check_altitude_positive, check_velocity_positive, inserted_row.
  cbn [Telemetry.satelliteId Telemetry.altitude Telemetry.velocity].
  rewrite (proj2 (Z.leb_le _ _) Hlen).
  now rewrite (float_gt_zero_ge _ Halt), (float_gt_zero_ge _ Hvel).
Qed.

(** The handler on a row that violates no CHECK constraint. *)
Lemma create_telemetry_inserts (body : TelemetryCreate.t) (s : State) :
  violated_constraint table_args (inserted_row body s) = None ->
  create_telemetry body s =
  (Ok200 (inserted_row body s),
   mkState (rows s ++ [inserted_row body s]) (clock s) (S (S (reads s)))).
Proof.
  intros Hc.
  unfold create_telemetry, model_dump, bind, add_commit, bind, utcnow, refresh.
  cbn [rows clock reads]. fold (inserted_row body s). rewrite Hc.
  cbn [rows Telemetry.id].
  change (next_id (rows s)) with (Telemetry.id (inserted_row body s)).
  rewrite find_id_app_new; [reflexivity |].
  intros r Hr. apply next_id_above in Hr.
  change (Telemetry.id (inserted_row body s)) with (next_id (rows s)). lia.
Qed.

Lemma post_telemetry_valid (body : TelemetryCreate.t) (s : State) :
  TelemetryCreate_validate body = [] ->
  post_telemetry body s =
  (Ok200 (inserted_row body s),
   mkState (rows s ++ [inserted_row body s]) (clock s) (S (S (reads s)))).
Proof.
  intros Hv. unfold post_telemetry. rewrite Hv.
  apply create_telemetry_inserts, valid_no_violation, Hv.
Qed.

Lemma post_telemetry_invalid (body : TelemetryCreate.t) (s : State) :
  TelemetryCreate_validate body <> [] ->
  post_telemetry body s =
  (RequestValidationError (TelemetryCreate_validate body), s).
Proof.
  intros Hv. unfold post_telemetry.
  destruct (TelemetryCreate_validate body); [contradiction | reflexivity].
Qed.

(* ================================================================= *)
(** ** The query of the list endpoint *)

Lemma list_satellites_paginate satelliteId status params :
  list_satellites satelliteId status params =
  paginate (list_query satelliteId status) params.
Proof. reflexivity. Qed.

Lemma TelemetryStatus_eqb_eq (a b : TelemetryStatus) :
  TelemetryStatus_eqb a b = true <-> a = b.
Proof. destruct a, b; simpl; split; congruence. Qed.

Lemma truthy_status_some (v : TelemetryStatus) :
  truthy_status (Some v) = true.
Proof. destruct v; reflexivity. Qed.

Lemma criteria_list_query satelliteId status (r : Telemetry.t) :
  criteria (list_query satelliteId status) r =
  filter_matches satelliteId status r.
Proof.
  unfold list_query, filter_matches.
  destruct satelliteId as [[| c v] |]; destruct status as [[|] |];
    cbn; rewrite ?andb_true_r; reflexivity.
Qed.

Lemma timestamp_desc_list_query satelliteId status :
  timestamp_desc (list_query satelliteId status) = true.
Proof. reflexivity. Qed.

(* ================================================================= *)
(** ** Facts on ORDER BY *)

Lemma insert_desc_perm (x : Telemetry.t) (l : list Telemetry.t) :
  Permutation (insert_desc x l) (x :: l).
Proof.
  induction l as [| y l IH]; simpl; [reflexivity |].
  destruct (Telemetry.timestamp y <=? Telemetry.timestamp x);
    [reflexivity |].
  rewrite IH. apply perm_swap.
Qed.

Lemma sort_desc_perm (l : list Telemetry.t) :
  Permutation (sort_desc l) l.
Proof.
  induction l as [| x l IH]; simpl; [reflexivity |].
  rewrite insert_desc_perm. now apply perm_skip.
Qed.

Lemma insert_desc_sorted (x : Telemetry.t) (l : list Telemetry.t) :
  StronglySorted desc l -> StronglySorted desc (insert_desc x l).
Proof.
  induction l as [| y l IH]; intros Hs; simpl.
  - constructor; constructor.
  - apply StronglySorted_inv in Hs. destruct Hs as [Hl Hy].
    destruct (Z.leb_spec (Telemetry.timestamp y) (Telemetry.timestamp x))
      as [Hle | Hgt].
    + constructor; [constructor; assumption |].
      constructor; [exact Hle |].
      eapply Forall_impl; [| exact Hy]. unfold desc. intros z Hz. lia.
    + constructor; [apply IH, Hl |].
      eapply Permutation_Forall;
        [symmetry; apply insert_desc_perm |].
      constructor; [unfold desc; lia | exact Hy].
Qed.

Lemma sort_desc_sorted (l : list Telemetry.t) :
  StronglySorted desc (sort_desc l).
Proof.
  induction l as [| x l IH]; simpl; [constructor |].
  now apply insert_desc_sorted.
Qed.

(** Rows with one timestamp keep the order the scan met them in. *)
Lemma insert_desc_stable (ts : datetime) (x : Telemetry.t)
    (l : list Telemetry.t) :
  StronglySorted desc l ->
  filter (fun r => Telemetry.timestamp r =? ts) (insert_desc x l) =
  filter (fun r => Telemetry.timestamp r =? ts) (x :: l).
Proof.
  induction l as [| y l IH]; intros Hs; [reflexivity |].
  apply StronglySorted_inv in Hs. destruct Hs as [Hl Hy].
  cbn [insert_desc].
  destruct (Z.leb_spec (Telemetry.timestamp y) (Telemetry.timestamp x))
    as [Hle | Hgt]; [reflexivity |].
  cbn [filter]. rewrite (IH Hl). cbn [filter].
  destruct (Z.eqb_spec (Telemetry.timestamp x) ts) as [Ex | Nx];
    [| reflexivity].
  destruct (Z.eqb_spec (Telemetry.timestamp y) ts) as [Ey | Ny];
    [lia | reflexivity].
Qed.

Lemma sort_desc_stable (ts : datetime) (l : list Telemetry.t) :
  filter (fun r => Telemetry.timestamp r =? ts) (sort_desc l) =
  filter (fun r => Telemetry.timestamp r =? ts) l.
Proof.
  induction l as [| x l IH]; [reflexivity |].
  cbn [sort_desc]. rewrite insert_desc_stable by apply sort_desc_sorted.
  cbn [filter]. now rewrite IH.
Qed.

Lemma StronglySorted_skipn (n : nat) (l : list Telemetry.t) :
  StronglySorted desc l -> StronglySorted desc (skipn n l).
Proof.
  revert l. induction n as [| n IH]; intros l Hs; [exact Hs |].
  destruct l as [| x l]; [exact Hs |].
  apply StronglySorted_inv in Hs. apply IH, Hs.
Qed.

Lemma StronglySorted_firstn (n : nat) (l : list Telemetry.t) :
  StronglySorted desc l -> StronglySorted desc (firstn n l).
Proof.
  revert l. induction n as [| n IH]; intros l Hs; [constructor |].
  destruct l as [| x l]; [constructor |].
  apply StronglySorted_inv in Hs. destruct Hs as [Hl Hx].
  cbn [firstn]. constructor; [apply IH, Hl |].
  rewrite Forall_forall in *. intros y Hy. apply Hx.
  rewrite <- (firstn_skipn n l). apply in_or_app. now left.
Qed.

Lemma result_sequence_perm satelliteId status (t : list Telemetry.t) :
  Permutation (result_sequence satelliteId status t)
              (filter (filter_matches satelliteId status) t).
Proof.
  unfold result_sequence, fetch. rewrite timestamp_desc_list_query.
  rewrite sort_desc_perm.
  erewrite filter_ext; [reflexivity |].
  intros r. apply criteria_list_query.
Qed.

Lemma result_sequence_sorted satelliteId status (t : list Telemetry.t) :
  StronglySorted desc (result_sequence satelliteId status t).
Proof.
  unfold result_sequence, fetch. rewrite timestamp_desc_list_query.
  apply sort_desc_sorted.
Qed.

(** What [GET /telemetry] computes, in one step. *)
Lemma list_satellites_page satelliteId status params (s : State) :
  list_satellites satelliteId status params s =
  (Ok200 (Page.mk
            (firstn (Z.to_nat (Params.size params))
               (skipn (Z.to_nat ((Params.page params - 1) * Params.size params))
                  (result_sequence satelliteId status (rows s))))
            (Z.of_nat (List.length
                         (result_sequence satelliteId status (rows s))))
            (Params.page params) (Params.size params)),
   s).
Proof. reflexivity. Qed.

(* ================================================================= *)
(** ** Validation and storage constraints *)

(** What the CHECK constraints of the table let through. *)
Lemma violated_constraint_none (r : Telemetry.t) :
  violated_constraint table_args r = None <->
  len (Telemetry.satelliteId r) <= 64 /\
  check_altitude_positive r = true /\
  check_velocity_positive r = true.
Proof.
  unfold table_args, violated_constraint, check_satelliteid_length.
  destruct (Z.leb_spec (len (Telemetry.satelliteId r)) 64);
    destruct (check_altitude_positive r);
    destruct (check_velocity_positive r);
    split; try discriminate; try (intuition (lia || congruence)).
Qed.







Example negative_velocity_rejected :
  post_telemetry body_negative_velocity empty_db =
  (RequestValidationError [mkError "velocity" "greater_than"], empty_db).
Proof. reflexivity. Qed.

(** C6, as the code has it: with altitude and velocity valid, a body is
    accepted exactly when its satelliteId has at most 64 characters. Up to
    64 characters (the empty string included) the row is stored with that
    satelliteId; from 65 characters on the answer is 422, the error names
    satelliteId, and nothing is stored. *)
Theorem satelliteId_accepted_iff_at_most_64
    (body : TelemetryCreate.t) (s : State) :
  float_gt (TelemetryCreate.altitude body) float_zero = true ->
  float_gt (TelemetryCreate.velocity body) float_zero = true ->
  (len (TelemetryCreate.satelliteId body) <= 64 <->
   exists row s', post_telemetry body s = (Ok200 row, s')) /\
  (len (TelemetryCreate.satelliteId body) <= 64 ->
   exists row s',
     post_telemetry body s = (Ok200 row, s') /\
     Telemetry.satelliteId row = TelemetryCreate.satelliteId body /\
     In row (rows s')) /\
  (64 < len (TelemetryCreate.satelliteId body) ->
   post_telemetry body s =
   (RequestValidationError [mkError "satelliteId" "string_too_long"], s) /\
   status_code_of (fst (post_telemetry body s)) = 422).
Proof.
  intros Halt Hvel.
  assert (Hacc : len (TelemetryCreate.satelliteId body) <= 64 ->
                 TelemetryCreate_validate body = []).
  { intros Hlen. apply validate_nil. auto. }
  assert (Hrej : 64 < len (TelemetryCreate.satelliteId body) ->
                 post_telemetry body s =
                 (RequestValidationError
                    [mkError "satelliteId" "string_too_long"], s)).
  { intros Hlen. unfold post_telemetry, TelemetryCreate_validate.
    rewrite Halt, Hvel.
    destruct (Z.leb_spec (len (TelemetryCreate.satelliteId body)) 64);
      [lia | reflexivity]. }
  split; [split |split].
  - intros Hlen. rewrite (post_telemetry_valid body s (Hacc Hlen)). eauto.
  - intros (row & s' & Hpost).
    destruct (Z.le_gt_cases (len (TelemetryCreate.satelliteId body)) 64)
      as [Hle | Hgt]; [exact Hle |].
    rewrite (Hrej Hgt) in Hpost. discriminate.
  - intros Hlen. rewrite (post_telemetry_valid body s (Hacc Hlen)).
    eexists. eexists. split; [reflexivity |]. split; [reflexivity |].
    cbn [rows]. apply in_or_app. right. now left.
  - intros Hlen. rewrite (Hrej Hlen). split; reflexivity.
Qed.

Lemma satelliteId_accepted_iff_at_most_64_witness :
  float_gt (TelemetryCreate.altitude body_id_64) float_zero = true /\
  float_gt (TelemetryCreate.velocity body_id_64) float_zero = true /\
  len (TelemetryCreate.satelliteId body_id_64) = 64 /\
  exists row s', post_telemetry body_id_64 empty_db = (Ok200 row, s').
Proof.
  assert (Halt : float_gt (TelemetryCreate.altitude body_id_64)
                   float_zero = true) by reflexivity.
  assert (Hvel : float_gt (TelemetryCreate.velocity body_id_64)
                   float_zero = true) by reflexivity.
  assert (Hlen : len (TelemetryCreate.satelliteId body_id_64) = 64)
    by reflexivity.
  repeat split; try reflexivity.
  apply (proj1 (satelliteId_accepted_iff_at_most_64 body_id_64 empty_db
                  Halt Hvel)).
  rewrite Hlen. apply Z.le_refl.
Defined.

Example satelliteId_65_rejected :
  len (TelemetryCreate.satelliteId body_id_65) = 65 /\
  post_telemetry body_id_65 empty_db =
  (RequestValidationError [mkError "satelliteId" "string_too_long"],
   empty_db).
Proof. split; reflexivity. Qed.

(** C6, as stated, fails on the empty satelliteId: a body whose satelliteId
    has no character is accepted and stored. *)
Lemma empty_satelliteId_accepted :
  len (TelemetryCreate.satelliteId body_id_empty) = 0 /\
  TelemetryCreate_validate body_id_empty = [] /\
  post_telemetry body_id_empty empty_db =
  (Ok200 (inserted_row body_id_empty empty_db),
   mkState [inserted_row body_id_empty empty_db] (clock empty_db) 2) /\
  status_code_of (fst (post_telemetry body_id_empty empty_db)) = 200.
Proof. repeat split; reflexivity. Qed.

(** C7: the CHECK constraints of the table let a row with altitude zero
    through. The handler, given the body that the validation refuses, stores
    it: [check_altitude_positive] tests [altitude >= 0]. *)
Theorem storage_accepts_zero_altitude :
  float_le (TelemetryCreate.altitude body_zero_altitude) float_zero = true /\
  TelemetryCreate_validate body_zero_altitude =
    [mkError "altitude" "greater_than"] /\
  violated_constraint table_args
    (inserted_row body_zero_altitude empty_db) = None /\
  create_telemetry body_zero_altitude empty_db =
  (Ok200 (inserted_row body_zero_altitude empty_db),
   mkState [inserted_row body_zero_altitude empty_db] (clock empty_db) 2).
Proof. repeat split; reflexivity. Qed.

(* ================================================================= *)
(** ** Create, get and delete by id *)



Lemma find_id_none (i : Z) (t : list Telemetry.t) :
  find (fun r => Telemetry.id r =? i) t = None <-> ~ present i t.
Proof.
  split.
  - intros Hf (r & Hin & Hid).
    pose proof (find_none _ _ Hf r Hin) as H. cbn in H.
    rewrite Hid, Z.eqb_refl in H. discriminate.
  - intros Hn. destruct (find _ t) as [r |] eqn:E; [| reflexivity].
    apply find_some in E. destruct E as [Hin Hid].
    exfalso. apply Hn. exists r. split; [exact Hin |].
    now apply Z.eqb_eq.
Qed.

Lemma filter_id_nil (i : Z) (t : list Telemetry.t) :
  filter (id_eq i) t = [] <-> ~ present i t.
Proof.
  unfold id_eq. split.
  - intros Hf (r & Hin & Hid).
    assert (Hr : In r (filter (fun r => Telemetry.id r =? i) t)).
    { apply filter_In. split; [exact Hin | now apply Z.eqb_eq]. }
    rewrite Hf in Hr. contradiction.
  - intros Hn.
    destruct (filter (fun r => Telemetry.id r =? i) t) as [| r l] eqn:E;
      [reflexivity |].
    exfalso. apply Hn. exists r.
    assert (Hr : In r (filter (fun r => Telemetry.id r =? i) t))
      by (rewrite E; now left).
    apply filter_In in Hr. destruct Hr as [Hin Hid].
    split; [exact Hin | now apply Z.eqb_eq].
Qed.



(** What [DELETE /telemetry/{id}] computes, in one step. *)
Lemma delete_telemetry_eval (i : Z) (s : State) :
  delete_telemetry i s =
  (if Z.of_nat (List.length (filter (id_eq i) (rows s))) =? 0
   then HTTPException 404 "Telemetry record not found"
   else Ok200 (DeleteResponse.mk i "Telemetry record deleted successfully"),
   mkState (filter (fun r => negb (id_eq i r)) (rows s))
     (clock s) (reads s)).
Proof.
  unfold delete_telemetry, bind, query_delete, commit, ret, query_filter,
    db_query.
  cbn [criteria]. rewrite filter_true_id.
  rewrite (filter_ext (fun r => negb (true && id_eq i r))
             (fun r => negb (id_eq i r))) by reflexivity.
  destruct (Z.of_nat (List.length (filter (id_eq i) (rows s))) =? 0);
    reflexivity.
Qed.

Lemma filter_negb_id_absent (i : Z) (t : list Telemetry.t) :
  ~ present i (filter (fun r => negb (id_eq i r)) t).
Proof.
  intros (r & Hin & Hid). apply filter_In in Hin. destruct Hin as [_ Hc].
  unfold id_eq in Hc. rewrite Hid, Z.eqb_refl in Hc. discriminate.
Qed.

Lemma filter_negb_id_noop (i : Z) (t : list Telemetry.t) :
  ~ present i t -> filter (fun r => negb (id_eq i r)) t = t.
Proof.
  intros Hn. apply forallb_filter_id. apply forallb_forall.
  intros r Hin. unfold id_eq.
  destruct (Z.eqb_spec (Telemetry.id r) i) as [E | _]; [| reflexivity].
  exfalso. apply Hn. now exists r.
Qed.




(* ================================================================= *)
(** ** Pages *)

Lemma skipn_cons_nth (k : nat) (l : list Telemetry.t) :
  skipn k l = (pick l k ++ skipn (S k) l)%list.
Proof.
  revert l. induction k as [| k IH]; intros [| x l]; try reflexivity.
  apply (IH l).
Qed.

Lemma firstn_skipn_pick (n k : nat) (l : list Telemetry.t) :
  firstn n (skipn k l) = flat_map (pick l) (seq k n).
Proof.
  revert k. induction n as [| n IH]; intros k; [reflexivity |].
  cbn [seq flat_map]. rewrite <- IH, (skipn_cons_nth k l).
  unfold pick. destruct (nth_error l k) as [x |] eqn:E; [reflexivity |].
  apply nth_error_None in E.
  rewrite (skipn_all2 (n := S k)) by lia. now destruct n.
Qed.

Lemma limit_offset_slice (page size : Z) (l : list Telemetry.t) :
  1 <= page -> 1 <= size ->
  firstn (Z.to_nat size) (skipn (Z.to_nat ((page - 1) * size)) l) =
  slice (Z.to_nat ((page - 1) * size)) (Z.to_nat (page * size)) l.
Proof.
  intros Hp Hs. unfold slice. rewrite firstn_skipn_pick.
  f_equal. f_equal.
  assert (0 <= (page - 1) * size) by nia.
  assert (page * size = (page - 1) * size + size) by ring.
  lia.
Qed.

Lemma limit_offset_nth (page size : Z) (l : list Telemetry.t) (i : nat) :
  1 <= size ->
  nth_error (firstn (Z.to_nat size)
               (skipn (Z.to_nat ((page - 1) * size)) l)) i =
  if Z.of_nat i <? size
  then nth_error l (Z.to_nat ((page - 1) * size) + i)
  else None.
Proof.
  intros Hs. rewrite nth_error_firstn, nth_error_skipn.
  destruct (Nat.ltb_spec i (Z.to_nat size));
    destruct (Z.ltb_spec (Z.of_nat i) size); try reflexivity; lia.
Qed.

Lemma pages_apart (p p' size : Z) (i j : nat) :
  1 <= p -> 1 <= p' -> p <> p' -> 1 <= size ->
  Z.of_nat i < size -> Z.of_nat j < size ->
  (Z.to_nat ((p - 1) * size) + i)%nat <> (Z.to_nat ((p' - 1) * size) + j)%nat.
Proof.
  intros Hp Hp' Hne Hs Hi Hj.
  assert (Ha : 0 <= (p - 1) * size) by nia.
  assert (Hb : 0 <= (p' - 1) * size) by nia.
  assert (Hcases : (p - 1) * size + size <= (p' - 1) * size \/
                   (p' - 1) * size + size <= (p - 1) * size) by nia.
  lia.
Qed.

Lemma NoDup_map_id_filter (c : Telemetry.t -> bool) (t : list Telemetry.t) :
  NoDup (map Telemetry.id t) -> NoDup (map Telemetry.id (filter c t)).
Proof.
  induction t as [| x t IH]; intros Hnd; [constructor |].
  cbn [map] in Hnd. apply NoDup_cons_iff in Hnd. destruct Hnd as [Hx Hnd].
  cbn [filter]. destruct (c x); [| now apply IH].
  cbn [map]. constructor; [| now apply IH].
  intros Hin. apply Hx. apply in_map_iff in Hin.
  destruct Hin as (r & Hid & Hr). apply filter_In in Hr.
  rewrite <- Hid. apply in_map. apply Hr.
Qed.

Lemma result_sequence_ids_unique satelliteId status (t : list Telemetry.t) :
  NoDup (map Telemetry.id t) ->
  NoDup (map Telemetry.id (result_sequence satelliteId status t)).
Proof.
  intros Hnd.
  eapply Permutation_NoDup;
    [apply Permutation_map; symmetry; apply result_sequence_perm |].
  now apply NoDup_map_id_filter.
Qed.

Lemma Params_valid_bounds (params : Params.t) :
  Params_valid params = true <->
  1 <= Params.page params /\ 1 <= Params.size params <= 100.
Proof.
  unfold Params_valid. rewrite !andb_true_iff, !Z.leb_le. lia.
Qed.

(** C2: for a page and a size within their bounds the list endpoint answers
    200, leaves the state alone, and its page holds: as items the slice
    [[(page-1)*size, page*size)] of the result sequence, which is the
    matching rows ordered by timestamp descending (index [i] of the page is
    index [(page-1)*size + i] of the sequence, and there is no index [size]
    or above); at most [size] items; no item when the slice starts at or
    after the end of the sequence; as total the number of matching rows of
    the table, which is the total of every other page and size too; page
    and size as given. Two different pages of one size share no id when the
    primary key is unique. *)
Theorem list_page_is_slice
    (satelliteId : option string) (status : option TelemetryStatus)
    (params : Params.t) (s : State) :
  Params_valid params = true ->
  exists pg : Page.t,
    list_satellites satelliteId status params s = (Ok200 pg, s) /\
    Page.items pg =
      slice (Z.to_nat ((Params.page params - 1) * Params.size params))
            (Z.to_nat (Params.page params * Params.size params))
            (result_sequence satelliteId status (rows s)) /\
    StronglySorted desc (result_sequence satelliteId status (rows s)) /\
    Permutation (result_sequence satelliteId status (rows s))
                (filter (filter_matches satelliteId status) (rows s)) /\
    (forall i : nat,
        nth_error (Page.items pg) i =
        if Z.of_nat i <? Params.size params
        then nth_error (result_sequence satelliteId status (rows s))
               (Z.to_nat ((Params.page params - 1) * Params.size params) + i)
        else None) /\
    Z.of_nat (List.length (Page.items pg)) <= Params.size params /\
    (Page.total pg <= (Params.page params - 1) * Params.size params ->
     Page.items pg = []) /\
    Page.total pg =
      Z.of_nat (List.length
                  (filter (filter_matches satelliteId status) (rows s))) /\
    Page.page pg = Params.page params /\
    Page.size pg = Params.size params /\
    (forall params' pg' s',
        list_satellites satelliteId status params' s = (Ok200 pg', s') ->
        Page.total pg' = Page.total pg) /\
    (forall params' pg' s',
        Params_valid params' = true ->
        Params.size params' = Params.size params ->
        Params.page params' <> Params.page params ->
        list_satellites satelliteId status params' s = (Ok200 pg', s') ->
        NoDup (map Telemetry.id (rows s)) ->
        forall r r',
          In r (Page.items pg) -> In r' (Page.items pg') ->
          Telemetry.id r <> Telemetry.id r').
Proof.
  intros Hv. apply Params_valid_bounds in Hv. destruct Hv as (Hp & Hs & Hcap).
  eexists. split; [apply list_satellites_page |].
  cbn [Page.items Page.total Page.page Page.size].
  set (result := result_sequence satelliteId status (rows s)).
  split; [now apply limit_offset_slice |].
  split; [apply result_sequence_sorted |].
  split; [apply result_sequence_perm |].
  split; [intros i; now apply limit_offset_nth |].
  split; [rewrite length_firstn; lia |].
  split.
  { intros Htot. rewrite skipn_all2; [now rewrite firstn_nil |].
    assert (0 <= (Params.page params - 1) * Params.size params) by nia.
    lia. }
  split.
  { f_equal. apply Permutation_length, result_sequence_perm. }
  split; [reflexivity |]. split; [reflexivity |].
  split.
  { intros params' pg' s'. rewrite list_satellites_page.
    intros [= <- _]. reflexivity. }
  intros params' pg' s' Hv' Hsize Hpage.
  apply Params_valid_bounds in Hv'. destruct Hv' as (Hp' & Hs' & _).
  rewrite list_satellites_page. intros [= <- _] Hnd r r' Hr Hr' Heq.
  cbn [Page.items] in Hr'. fold result in Hr'.
  apply In_nth_error in Hr. destruct Hr as (i & Hi).
  apply In_nth_error in Hr'. destruct Hr' as (j & Hj).
  rewrite limit_offset_nth in Hi by exact Hs.
  rewrite limit_offset_nth in Hj by exact Hs'.
  destruct (Z.ltb_spec (Z.of_nat i) (Params.size params)) as [Hlti |];
    [| discriminate].
  destruct (Z.ltb_spec (Z.of_nat j) (Params.size params')) as [Hltj |];
    [| discriminate].
  pose proof (result_sequence_ids_unique satelliteId status (rows s) Hnd)
    as Hu.
  fold result in Hu.
  pose proof (proj1 (NoDup_nth_error (map Telemetry.id result)) Hu) as Hinj.
  assert (Hidx : (Z.to_nat ((Params.page params - 1) * Params.size params)
                  + i)%nat =
                 (Z.to_nat ((Params.page params' - 1) * Params.size params')
                  + j)%nat).
  { apply Hinj.
    - rewrite length_map. apply nth_error_Some. rewrite Hi. discriminate.
    - rewrite !nth_error_map, Hi, Hj. cbn. now rewrite Heq. }
  rewrite Hsize in Hidx, Hltj.
  revert Hidx. apply pages_apart; auto.
Qed.

Lemma list_page_is_slice_witness :
  Params_valid (Params.mk 2 2) = true /\
  exists pg,
    list_satellites None None (Params.mk 2 2) db_five = (Ok200 pg, db_five) /\
    Page.total pg = 5 /\ Page.page pg = 2 /\ Page.size pg = 2 /\
    map Telemetry.id (Page.items pg) = [3; 2].
Proof.
  split; [reflexivity |].
  destruct (list_page_is_slice None None (Params.mk 2 2) db_five eq_refl)
    as (pg & Hlist & Hitems & _ & _ & _ & _ & _ & Htotal & Hpage & Hsize & _).
  exists pg. split; [exact Hlist |].
  split; [rewrite Htotal; reflexivity |].
  split; [exact Hpage |]. split; [exact Hsize |].
  rewrite Hitems. reflexivity.
Defined.

Example pagination_five_records :
  map Telemetry.satelliteId (rows db_five) =
    ["SAT-000"; "SAT-001"; "SAT-002"; "SAT-003"; "SAT-004"] /\
  (exists items,
      fst (list_satellites None None (Params.mk 1 2) db_five) =
        Ok200 (Page.mk items 5 1 2) /\
      map Telemetry.id items = [5; 4]) /\
  (exists items,
      fst (list_satellites None None (Params.mk 3 2) db_five) =
        Ok200 (Page.mk items 5 3 2) /\
      map Telemetry.id items = [1]) /\
  fst (list_satellites None None (Params.mk 4 2) db_five) =
    Ok200 (Page.mk [] 5 4 2).
Proof.
  split; [reflexivity |].
  split; [eexists; split; reflexivity |].
  split; [eexists; split; reflexivity |].
  reflexivity.
Qed.

(* ================================================================= *)
(** ** Filters *)

Lemma filter_matches_selected satelliteId status (r : Telemetry.t) :
  filter_matches satelliteId status r = true <->
  selected satelliteId status r.
Proof.
  unfold filter_matches, selected, satelliteId_matches, status_matches.
  rewrite andb_true_iff. split.
  - intros [Hsat Hst]. split.
    + intros v -> Hv. destruct v as [| c v]; [contradiction |].
      now apply String.eqb_eq.
    + intros v ->. now apply TelemetryStatus_eqb_eq.
  - intros [Hsat Hst]. split.
    + destruct satelliteId as [[| c v] |]; try reflexivity.
      apply String.eqb_eq. apply Hsat; [reflexivity | discriminate].
    + destruct status as [v |]; [| reflexivity].
      apply TelemetryStatus_eqb_eq. now apply Hst.
Qed.

Lemma result_sequence_In satelliteId status (t : list Telemetry.t)
    (r : Telemetry.t) :
  In r (result_sequence satelliteId status t) <->
  In r t /\ selected satelliteId status r.
Proof.
  rewrite <- filter_matches_selected, <- filter_In. split.
  - apply Permutation_in, result_sequence_perm.
  - apply Permutation_in. symmetry. apply result_sequence_perm.
Qed.

Lemma In_limit_offset (n k : nat) (l : list Telemetry.t) (r : Telemetry.t) :
  In r (firstn n (skipn k l)) -> In r l.
Proof.
  intros Hr. rewrite <- (firstn_skipn k l). apply in_or_app. right.
  rewrite <- (firstn_skipn n (skipn k l)). apply in_or_app. now left.
Qed.

(** The page a given index of the result sequence falls on. *)
Lemma index_on_some_page (size : Z) (k : nat) :
  1 <= size ->
  1 <= Z.of_nat k / size + 1 /\
  Z.of_nat (Z.to_nat (Z.of_nat k mod size)) < size /\
  (Z.to_nat ((Z.of_nat k / size + 1 - 1) * size) +
   Z.to_nat (Z.of_nat k mod size))%nat = k.
Proof.
  intros Hs.
  pose proof (Z.div_mod (Z.of_nat k) size ltac:(lia)) as Hdm.
  pose proof (Z.mod_pos_bound (Z.of_nat k) size ltac:(lia)) as Hm.
  pose proof (Z.div_pos (Z.of_nat k) size ltac:(lia) ltac:(lia)) as Hq.
  replace ((Z.of_nat k / size + 1 - 1) * size)
    with (size * (Z.of_nat k / size)) by ring.
  assert (0 <= size * (Z.of_nat k / size)) by nia.
  lia.
Qed.

(** C3, as the code has it: the rows the list endpoint selects are exactly
    the rows of the table that meet every applied filter. With a satelliteId
    that is not empty and a status, these are the rows that have that
    satelliteId and that status, both at once; a parameter that is absent
    lets every value of its field through, and so does a satelliteId that is
    the empty string. Every item of every page is such a row, the total is
    their number, and each of them is an item of some page. *)
Theorem list_filters_conjunction
    (satelliteId : option string) (status : option TelemetryStatus)
    (s : State) :
  (forall r,
      In r (result_sequence satelliteId status (rows s)) <->
      In r (rows s) /\ selected satelliteId status r) /\
  (forall sat st r,
      satelliteId = Some sat -> sat <> "" -> status = Some st ->
      (In r (result_sequence satelliteId status (rows s)) <->
       In r (rows s) /\
       Telemetry.satelliteId r = sat /\ Telemetry.status r = st)) /\
  (forall sat r,
      satelliteId = Some sat -> sat <> "" -> status = None ->
      (In r (result_sequence satelliteId status (rows s)) <->
       In r (rows s) /\ Telemetry.satelliteId r = sat)) /\
  (forall st r,
      satelliteId = None -> status = Some st ->
      (In r (result_sequence satelliteId status (rows s)) <->
       In r (rows s) /\ Telemetry.status r = st)) /\
  (satelliteId = None -> status = None ->
   Permutation (result_sequence satelliteId status (rows s)) (rows s)) /\
  Permutation (result_sequence satelliteId status (rows s))
              (filter (filter_matches satelliteId status) (rows s)) /\
  (forall params pg s',
      list_satellites satelliteId status params s = (Ok200 pg, s') ->
      Page.total pg =
        Z.of_nat (List.length
                    (filter (filter_matches satelliteId status) (rows s))) /\
      forall r, In r (Page.items pg) ->
                In r (rows s) /\ selected satelliteId status r) /\
  (forall size r,
      1 <= size <= 100 ->
      In r (rows s) -> selected satelliteId status r ->
      exists page pg,
        1 <= page /\
        list_satellites satelliteId status (Params.mk page size) s =
          (Ok200 pg, s) /\
        In r (Page.items pg)).
Proof.
  split; [intros r; apply result_sequence_In |].
  split.
  { intros sat st r -> Hne ->. rewrite result_sequence_In.
    unfold selected. split.
    - intros (Hin & Hsat & Hst). auto.
    - intros (Hin & Hsat & Hst). split; [exact Hin |].
      split; intros v [= <-]; auto. }
  split.
  { intros sat r -> Hne ->. rewrite result_sequence_In.
    unfold selected. split.
    - intros (Hin & Hsat & _). auto.
    - intros (Hin & Hsat). split; [exact Hin |].
      split; [intros v [= <-]; auto | discriminate]. }
  split.
  { intros st r -> ->. rewrite result_sequence_In.
    unfold selected. split.
    - intros (Hin & _ & Hst). auto.
    - intros (Hin & Hst). split; [exact Hin |].
      split; [discriminate | intros v [= <-]; auto]. }
  split.
  { intros -> ->. rewrite result_sequence_perm.
    unfold filter_matches, satelliteId_matches, status_matches.
    cbn [andb]. now rewrite filter_true. }
  split; [apply result_sequence_perm |].
  split.
  { intros params pg s'. rewrite list_satellites_page. intros [= <- _].
    cbn [Page.total Page.items]. split.
    - f_equal. apply Permutation_length, result_sequence_perm.
    - intros r Hr. apply result_sequence_In.
      revert Hr. apply In_limit_offset. }
  intros size r Hsize Hin Hsel.
  assert (Hr : In r (result_sequence satelliteId status (rows s)))
    by (apply result_sequence_In; auto).
  apply In_nth_error in Hr. destruct Hr as (k & Hk).
  destruct (index_on_some_page size k ltac:(lia)) as (Hpage & Hlt & Hidx).
  exists (Z.of_nat k / size + 1). eexists.
  split; [exact Hpage |].
  split; [apply list_satellites_page |].
  cbn [Page.items Params.page Params.size].
  apply (nth_error_In _ (Z.to_nat (Z.of_nat k mod size))).
  rewrite limit_offset_nth by lia.
  destruct (Z.ltb_spec (Z.of_nat (Z.to_nat (Z.of_nat k mod size))) size);
    [| lia].
  now rewrite Hidx.
Qed.

Lemma list_filters_conjunction_witness :
  exists pg,
    list_satellites (Some "SAT-001") (Some CRITICAL) (Params.mk 1 50)
      db_three = (Ok200 pg, db_three) /\
    Page.total pg = 1 /\
    forall r, In r (Page.items pg) ->
              Telemetry.satelliteId r = "SAT-001" /\
              Telemetry.status r = CRITICAL.
Proof.
  destruct (list_filters_conjunction (Some "SAT-001") (Some CRITICAL)
              db_three) as (_ & _ & _ & _ & _ & _ & Hpages & _).
  eexists. split; [reflexivity |].
  destruct (Hpages (Params.mk 1 50) _ _ eq_refl) as (Htotal & Hitems).
  split; [rewrite Htotal; reflexivity |].
  intros r Hr. destruct (Hitems r Hr) as (_ & Hsat & Hst).
  split; [apply Hsat; [reflexivity | discriminate] | now apply Hst].
Defined.

(** C3, as stated, fails when the satelliteId given is the empty string:
    with a status beside it the endpoint returns the rows of that status
    whatever their satelliteId, here two rows, neither of which has the
    empty satelliteId that was asked for. *)
Lemma empty_satelliteId_and_status_not_intersection :
  exists pg,
    list_satellites (Some "") (Some CRITICAL) (Params.mk 1 50) db_three =
      (Ok200 pg, db_three) /\
    Page.total pg = 2 /\
    map Telemetry.satelliteId (Page.items pg) = ["SAT-001"; "SAT-002"] /\
    map Telemetry.status (Page.items pg) = [CRITICAL; CRITICAL] /\
    filter (fun r => String.eqb (Telemetry.satelliteId r) "" &&
                     TelemetryStatus_eqb (Telemetry.status r) CRITICAL)
           (rows db_three) = [].
Proof. eexists. repeat split. Qed.

(* ================================================================= *)
(** ** Order *)

(** C4: the list endpoint always answers 200, and the sequence its pages
    are cut from is ordered by timestamp descending, as are the items of
    each page. Rows with one timestamp stand in the order the table has
    them in. The answer depends on the rows of the table and on nothing
    else in the state, and the endpoint leaves the state as it was, so the
    same query asked again of the state it left gets the same answer. *)
Theorem list_ordered_and_repeatable
    (satelliteId : option string) (status : option TelemetryStatus)
    (params : Params.t) (s : State) :
  StronglySorted desc (result_sequence satelliteId status (rows s)) /\
  (exists pg,
      list_satellites satelliteId status params s = (Ok200 pg, s) /\
      StronglySorted desc (Page.items pg)) /\
  (forall ts,
      filter (fun r => Telemetry.timestamp r =? ts)
             (result_sequence satelliteId status (rows s)) =
      filter (fun r => Telemetry.timestamp r =? ts)
             (filter (filter_matches satelliteId status) (rows s))) /\
  (forall resp s',
      list_satellites satelliteId status params s = (resp, s') ->
      s' = s /\
      list_satellites satelliteId status params s' = (resp, s')) /\
  (forall s2,
      rows s2 = rows s ->
      fst (list_satellites satelliteId status params s2) =
      fst (list_satellites satelliteId status params s)).
Proof.
  split; [apply result_sequence_sorted |].
  split.
  { eexists. split; [apply list_satellites_page |].
    cbn [Page.items].
    apply StronglySorted_firstn, StronglySorted_skipn,
      result_sequence_sorted. }
  split.
  { intros ts. unfold result_sequence, fetch.
    rewrite timestamp_desc_list_query, sort_desc_stable.
    f_equal. apply filter_ext. intros r. apply criteria_list_query. }
  split.
  { intros resp s'. rewrite list_satellites_page. intros [= <- <-].
    split; [reflexivity | apply list_satellites_page]. }
  intros s2 Hrows. rewrite !list_satellites_page. cbn [fst].
  now rewrite Hrows.
Qed.

Lemma list_ordered_and_repeatable_witness :
  exists pg,
    list_satellites None None (Params.mk 1 50) db_ties = (Ok200 pg, db_ties) /\
    StronglySorted desc (Page.items pg) /\
    map Telemetry.satelliteId (Page.items pg) =
      ["SAT-D"; "SAT-B"; "SAT-C"; "SAT-A"].
Proof.
  destruct (list_ordered_and_repeatable None None (Params.mk 1 50) db_ties)
    as (_ & (pg & Hlist & Hsorted) & _).
  exists pg. split; [exact Hlist |]. split; [exact Hsorted |].
  assert (Hpg : Ok200 pg =
                fst (list_satellites None None (Params.mk 1 50) db_ties))
    by (rewrite Hlist; reflexivity).
  injection Hpg as ->. reflexivity.
Defined.

(* ================================================================= *)
(** ** The empty satelliteId parameter *)

(** C10: a satelliteId parameter that is the empty string is a parameter
    that is not there. The endpoint gives the same response and the same
    state for both, whatever the status, the page and the size. No
    satelliteId filter is applied: the answer is a page whose total is the
    number of rows of the table that meet the status filter, if there is
    one, whose items are all such rows, and each such row, whatever its
    satelliteId, is an item of the page it falls on; with no status filter,
    a first page that is large enough returns all the rows of the table,
    and not only those whose satelliteId is the empty string. *)
Theorem empty_satelliteId_is_no_filter
    (status : option TelemetryStatus) (params : Params.t) (s : State) :
  list_satellites (Some "") status params s =
  list_satellites None status params s /\
  (exists pg,
      list_satellites (Some "") status params s = (Ok200 pg, s) /\
      Page.total pg =
        Z.of_nat (List.length (filter (status_matches status) (rows s))) /\
      forall r,
        In r (Page.items pg) ->
        In r (rows s) /\
        (forall v, status = Some v -> Telemetry.status r = v)) /\
  (forall size r,
      1 <= size <= 100 ->
      In r (rows s) ->
      (forall v, status = Some v -> Telemetry.status r = v) ->
      exists page pg,
        1 <= page /\
        list_satellites (Some "") status (Params.mk page size) s =
          (Ok200 pg, s) /\
        In r (Page.items pg)) /\
  (status = None ->
   Params.page params = 1 ->
   Z.of_nat (List.length (rows s)) <= Params.size params ->
   exists pg,
     list_satellites (Some "") status params s = (Ok200 pg, s) /\
     Page.total pg = Z.of_nat (List.length (rows s)) /\
     Permutation (Page.items pg) (rows s)) /\
  (forall r,
      In r (result_sequence (Some "") status (rows s)) <->
      In r (rows s) /\ (forall v, status = Some v -> Telemetry.status r = v)) /\
  (status = None ->
   Permutation (result_sequence (Some "") status (rows s)) (rows s)).
Proof.
  assert (Hin : forall r,
             In r (result_sequence (Some "") status (rows s)) <->
             In r (rows s) /\
             (forall v, status = Some v -> Telemetry.status r = v)).
  { intros r. rewrite result_sequence_In. unfold selected. split.
    - intros (Hr & _ & Hst). auto.
    - intros (Hr & Hst). split; [exact Hr |].
      split; [| exact Hst]. intros v [= <-] Hne. now contradiction Hne. }
  assert (Hall : status = None ->
                 Permutation (result_sequence (Some "") status (rows s))
                   (rows s)).
  { intros ->. rewrite result_sequence_perm.
    unfold filter_matches, satelliteId_matches, status_matches.
    cbn [andb]. now rewrite filter_true. }
  split; [reflexivity |].
  split.
  { eexists. split; [apply list_satellites_page |].
    cbn [Page.total Page.items]. split.
    - rewrite (Permutation_length (result_sequence_perm _ _ _)).
      reflexivity.
    - intros r Hr. apply Hin. revert Hr. apply In_limit_offset. }
  split.
  { intros size r Hsize Hr Hst.
    assert (Hres : In r (result_sequence (Some "") status (rows s)))
      by (apply Hin; auto).
    apply In_nth_error in Hres. destruct Hres as (k & Hk).
    destruct (index_on_some_page size k ltac:(lia)) as (Hpage & Hlt & Hidx).
    exists (Z.of_nat k / size + 1). eexists.
    split; [exact Hpage |].
    split; [apply list_satellites_page |].
    cbn [Page.items Params.page Params.size].
    apply (nth_error_In _ (Z.to_nat (Z.of_nat k mod size))).
    rewrite limit_offset_nth by lia.
    destruct (Z.ltb_spec (Z.of_nat (Z.to_nat (Z.of_nat k mod size))) size);
      [| lia].
    now rewrite Hidx. }
  split.
  { intros Hnone Hpage Hsize. eexists.
    split; [apply list_satellites_page |].
    cbn [Page.total Page.items]. rewrite Hpage.
    pose proof (Permutation_length (Hall Hnone)) as Hlen.
    split; [now rewrite Hlen |].
    replace (Z.to_nat ((1 - 1) * Params.size params)) with 0%nat by lia.
    cbn [skipn]. rewrite firstn_all2 by lia. now apply Hall. }
  split; [exact Hin | exact Hall].
Qed.

Lemma empty_satelliteId_is_no_filter_witness :
  exists pg,
    list_satellites (Some "") None (Params.mk 1 50) db_three =
      (Ok200 pg, db_three) /\
    Page.total pg = 3 /\
    Permutation (Page.items pg) (rows db_three) /\
    map Telemetry.satelliteId (Page.items pg) =
      ["SAT-001"; "SAT-002"; "SAT-001"].
Proof.
  destruct (empty_satelliteId_is_no_filter None (Params.mk 1 50) db_three)
    as (_ & _ & _ & Hfirst & _).
  destruct (Hfirst eq_refl eq_refl ltac:(cbn; lia))
    as (pg & Hlist & Htotal & Hperm).
  exists pg. split; [exact Hlist |]. split; [exact Htotal |].
  split; [exact Hperm |].
  assert (Hpg : Ok200 pg =
                fst (list_satellites (Some "") None (Params.mk 1 50)
                       db_three)) by (rewrite Hlist; reflexivity).
  injection Hpg as ->. reflexivity.
Defined.

Example empty_satelliteId_lists_all :
  exists pg,
    list_satellites (Some "") None (Params.mk 1 50) db_three =
      (Ok200 pg, db_three) /\
    Page.total pg = 3 /\
    map Telemetry.satelliteId (Page.items pg) =
      ["SAT-001"; "SAT-002"; "SAT-001"].
Proof. eexists. repeat split. Qed.

(* ================================================================= *)
(** ** The API as a transition system *)

Lemma get_telemetry_state (i : Z) (s : State) :
  snd (get_telemetry i s) = s.
Proof.
  rewrite get_telemetry_find. now destruct (find _ (rows s)).
Qed.

Lemma post_telemetry_cases (body : TelemetryCreate.t) (s : State) :
  post_telemetry body s =
    (Ok200 (inserted_row body s),
     mkState (rows s ++ [inserted_row body s]) (clock s)
       (S (S (reads s)))) \/
  snd (post_telemetry body s) = s.
Proof.
  destruct (TelemetryCreate_validate body) as [| e es] eqn:E.
  - left. now apply post_telemetry_valid.
  - right. rewrite post_telemetry_invalid by (rewrite E; discriminate).
    reflexivity.
Qed.

(** A request keeps the clock, and a row of the state it leaves is a row of
    the state it met or the row a POST has just inserted. *)
Lemma handle_clock (req : Request) (s : State) :
  clock (handle req s) = clock s.
Proof.
  destruct req as [body | sat st params | i | i]; cbn [handle].
  - destruct (post_telemetry_cases body s) as [-> | ->]; reflexivity.
  - reflexivity.
  - now rewrite get_telemetry_state.
  - now rewrite delete_telemetry_eval.
Qed.

Lemma handle_rows (req : Request) (s : State) (r : Telemetry.t) :
  In r (rows (handle req s)) ->
  In r (rows s) \/
  exists body, req = POST body /\ r = inserted_row body s.
Proof.
  destruct req as [body | sat st params | i | i]; cbn [handle].
  - destruct (post_telemetry_cases body s) as [-> | ->]; [| now left].
    cbn [snd rows]. intros Hin. apply in_app_or in Hin.
    destruct Hin as [Hin | [<- | []]]; [now left |].
    right. now exists body.
  - now left.
  - rewrite get_telemetry_state. now left.
  - rewrite delete_telemetry_eval. cbn [snd rows]. intros Hin.
    apply filter_In in Hin. left. apply Hin.
Qed.

Lemma reachable_clock (s0 s : State) :
  reachable s0 s -> clock s = clock s0.
Proof.
  induction 1 as [| s req _ IH]; [reflexivity |].
  now rewrite handle_clock.
Qed.

(** The primary key stays unique along every run from an empty table. *)
Lemma handle_primary_key (req : Request) (s : State) :
  NoDup (map Telemetry.id (rows s)) ->
  NoDup (map Telemetry.id (rows (handle req s))).
Proof.
  intros Hnd. destruct req as [body | sat st params | i | i]; cbn [handle].
  - destruct (post_telemetry_cases body s) as [-> | ->]; [| exact Hnd].
    cbn [snd rows]. rewrite map_app. apply NoDup_app; [exact Hnd | |].
    + cbn. constructor; [intros [] | constructor].
    + intros a Ha [<- | []]. apply in_map_iff in Ha.
      destruct Ha as (r & Hid & Hr). apply next_id_above in Hr.
      cbn [inserted_row Telemetry.id] in Hid. lia.
  - exact Hnd.
  - now rewrite get_telemetry_state.
  - rewrite delete_telemetry_eval. cbn [snd rows].
    now apply NoDup_map_id_filter.
Qed.

Lemma reachable_primary_key (s0 s : State) :
  rows s0 = [] -> reachable s0 s -> NoDup (map Telemetry.id (rows s)).
Proof.
  intros H0. induction 1 as [| s req _ IH].
  - rewrite H0. constructor.
  - now apply handle_primary_key.
Qed.

Lemma find_id_filter_other (i j : Z) (t : list Telemetry.t) :
  i <> j ->
  find (fun r => Telemetry.id r =? i)
       (filter (fun r => negb (id_eq j r)) t) =
  find (fun r => Telemetry.id r =? i) t.
Proof.
  intros Hne. induction t as [| x t IH]; [reflexivity |].
  cbn [filter find]. unfold id_eq at 1.
  destruct (Z.eqb_spec (Telemetry.id x) j) as [Ej | Nj]; cbn [negb].
  - destruct (Z.eqb_spec (Telemetry.id x) i) as [Ei | _]; [lia | exact IH].
  - cbn [find]. now rewrite IH.
Qed.

(** A record that a GET finds before a request and after it is the same
    record: a request removes a row or leaves it as it is. *)
Lemma handle_keeps_record (req : Request) (s : State) (i : Z)
    (r r' : Telemetry.t) :
  get_telemetry i s = (Ok200 r, s) ->
  fst (get_telemetry i (handle req s)) = Ok200 r' ->
  r' = r.
Proof.
  rewrite !get_telemetry_find.
  destruct (find _ (rows s)) as [r0 |] eqn:E; [| discriminate].
  intros [= <-].
  destruct req as [body | sat st params | j | j]; cbn [handle].
  - destruct (post_telemetry_cases body s) as [-> | ->].
    + cbn [snd rows]. rewrite (find_id_app_old _ _ _ _ E).
      now intros [= <-].
    + rewrite E. now intros [= <-].
  - change (snd (list_satellites sat st params s)) with s.
    rewrite E. now intros [= <-].
  - rewrite get_telemetry_state, E. now intros [= <-].
  - rewrite delete_telemetry_eval. cbn [snd rows].
    destruct (Z.eq_dec i j) as [-> | Hne].
    + rewrite (proj2 (find_id_none j _) (filter_negb_id_absent j _)).
      discriminate.
    + rewrite (find_id_filter_other i j _ Hne), E. now intros [= <-].
Qed.

(** C9, as the code has it: the INSERT reads the clock once for the default
    of [created] and once more for the default of [updated], so in every
    state reached from an empty table each row has as [created] one reading
    of the clock and as [updated] the reading that follows it; the two are
    equal whenever those two readings are. No request changes either field
    afterwards: a row of the state a request leaves is a row of the state it
    met or the row a POST has just inserted, and a record that a GET finds
    before and after a request is the same record. *)
Theorem created_updated_set_at_insert (s0 s : State) (req : Request) :
  rows s0 = [] ->
  reachable s0 s ->
  (forall r,
      In r (rows s) ->
      exists n, Telemetry.created r = clock s0 n /\
                Telemetry.updated r = clock s0 (S n)) /\
  ((forall n, clock s0 (S n) = clock s0 n) ->
   forall r, In r (rows s) -> Telemetry.updated r = Telemetry.created r) /\
  (forall r,
      In r (rows (handle req s)) ->
      In r (rows s) \/
      exists body,
        req = POST body /\
        Telemetry.created r = clock s (reads s) /\
        Telemetry.updated r = clock s (S (reads s))) /\
  (forall i r r',
      get_telemetry i s = (Ok200 r, s) ->
      fst (get_telemetry i (handle req s)) = Ok200 r' ->
      r' = r /\
      Telemetry.created r' = Telemetry.created r /\
      Telemetry.updated r' = Telemetry.updated r).
Proof.
  intros H0 Hreach.
  assert (Hstamp : forall r,
             In r (rows s) ->
             exists n, Telemetry.created r = clock s0 n /\
                       Telemetry.updated r = clock s0 (S n)).
  { clear req. induction Hreach as [| s req Hreach IH].
    - rewrite H0. intros r [].
    - intros r Hr. apply handle_rows in Hr.
      destruct Hr as [Hr | (body & _ & ->)]; [now apply IH |].
      exists (reads s). cbn [inserted_row Telemetry.created Telemetry.updated].
      now rewrite (reachable_clock s0 s Hreach). }
  split; [exact Hstamp |].
  split.
  { intros Hfrozen r Hr. destruct (Hstamp r Hr) as (n & -> & ->).
    apply Hfrozen. }
  split.
  { intros r Hr. apply handle_rows in Hr.
    destruct Hr as [Hr | (body & -> & ->)]; [now left |].
    right. exists body. repeat split. }
  intros i r r' Hget Hget'.
  pose proof (handle_keeps_record req s i r r' Hget Hget') as ->.
  repeat split.
Qed.

Lemma created_updated_set_at_insert_witness :
  rows empty_db = [] /\
  reachable empty_db (handle (POST body_example) empty_db) /\
  forall r,
    In r (rows (handle (POST body_example) empty_db)) ->
    exists n, Telemetry.created r = clock empty_db n /\
              Telemetry.updated r = clock empty_db (S n).
Proof.
  assert (H0 : rows empty_db = []) by reflexivity.
  assert (Hreach : reachable empty_db (handle (POST body_example) empty_db))
    by (apply reachable_step, reachable_init).
  split; [exact H0 |]. split; [exact Hreach |].
  apply (created_updated_set_at_insert empty_db
           (handle (POST body_example) empty_db) (GET 1) H0 Hreach).
Defined.

(** On a clock that stands still the two fields are equal. *)
Example frozen_clock_created_equals_updated :
  exists record s',
    post_telemetry body_example frozen_db = (Ok200 record, s') /\
    Telemetry.updated record = Telemetry.created record.
Proof. eexists. eexists. split; reflexivity. Qed.

(** C9, as stated, fails when the clock moves between the two readings: the
    record the POST stores and returns has [created] 0 and [updated] 1. *)
Lemma updated_differs_from_created :
  exists record s',
    post_telemetry body_example empty_db = (Ok200 record, s') /\
    In record (rows s') /\
    get_telemetry (Telemetry.id record) s' = (Ok200 record, s') /\
    Telemetry.created record = 0 /\
    Telemetry.updated record = 1 /\
    Telemetry.updated record <> Telemetry.created record.
Proof.
  eexists. eexists. split; [reflexivity |].
  split; [now left |]. repeat split. discriminate.
Qed.

(* ================================================================= *)
(** ** The POST route on JSON bodies *)

Lemma TelemetryStatus_of_value (status : TelemetryStatus) :
  TelemetryStatus_of_string (TelemetryStatus_value status) = Some status.
Proof. destruct status; reflexivity. Qed.

Lemma TelemetryStatus_of_string_inv (v : string) (status : TelemetryStatus) :
  TelemetryStatus_of_string v = Some status ->
  v = TelemetryStatus_value status.
Proof.
  unfold TelemetryStatus_of_string.
  destruct (String.eqb_spec v "healthy") as [-> | _]; [now intros [= <-] |].
  destruct (String.eqb_spec v "critical") as [-> | _];
    [now intros [= <-] | discriminate].
Qed.

Lemma TelemetryStatus_of_string_none (v : string) :
  v <> "healthy" -> v <> "critical" -> TelemetryStatus_of_string v = None.
Proof.
  intros Hh Hc. unfold TelemetryStatus_of_string.
  destruct (String.eqb_spec v "healthy"); [contradiction |].
  destruct (String.eqb_spec v "critical"); [contradiction | reflexivity].
Qed.

(** X23: a status and its value. The value of a member is read back as
    that member, and a string is read as a member only when it is that
    member's value, letter for letter: any other string, another case of
    the same word or the empty string among them, is no status. *)
Theorem TelemetryStatus_value_round_trip :
  (forall status,
      TelemetryStatus_of_string (TelemetryStatus_value status) = Some status) /\
  (forall v status,
      TelemetryStatus_of_string v = Some status ->
      v = TelemetryStatus_value status) /\
  (forall v,
      v <> "healthy" -> v <> "critical" ->
      TelemetryStatus_of_string v = None) /\
  TelemetryStatus_of_string "Healthy" = None /\
  TelemetryStatus_of_string "" = None.
Proof.
  split; [apply TelemetryStatus_of_value |].
  split; [apply TelemetryStatus_of_string_inv |].
  split; [apply TelemetryStatus_of_string_none |].
  split; reflexivity.
Qed.

Lemma post_route_errors (body : Body.t) (s : State) :
  body_errors body <> [] ->
  post_route body s = (RequestValidationError (body_errors body), s).
Proof.
  intros Hne. unfold post_route.
  destruct (body_errors body); [contradiction | reflexivity].
Qed.

(** A body without errors is a body whose five fields are all read, and the
    model it is read into passes the Field constraints. *)
Lemma body_errors_nil (body : Body.t) :
  body_errors body = [] ->
  exists sat ts alt vel st status,
    body = Body.mk (Valid sat) (Valid ts) (Valid alt) (Valid vel) (Valid st) /\
    TelemetryStatus_of_string st = Some status /\
    body_model body = Some (TelemetryCreate.mk sat ts alt vel status) /\
    TelemetryCreate_validate (TelemetryCreate.mk sat ts alt vel status) = [].
Proof.
  destruct body as [fsat fts falt fvel fst]. unfold body_errors, body_model.
  cbn [Body.satelliteId Body.timestamp Body.altitude Body.velocity
       Body.status].
  intros He.
  apply app_eq_nil in He. destruct He as [Hsat He].
  apply app_eq_nil in He. destruct He as [Hts He].
  apply app_eq_nil in He. destruct He as [Halt He].
  apply app_eq_nil in He. destruct He as [Hvel Hst].
  destruct fsat as [| | sat]; try discriminate.
  destruct fts as [| | ts]; try discriminate.
  destruct falt as [| | alt]; try discriminate.
  destruct fvel as [| | vel]; try discriminate.
  destruct fst as [| | st]; try discriminate.
  cbn [field_errors] in *.
  destruct (TelemetryStatus_of_string st) as [status |] eqn:Est;
    [| discriminate].
  exists sat, ts, alt, vel, st, status.
  split; [reflexivity |]. split; [exact Est |]. split; [reflexivity |].
  unfold TelemetryCreate_validate.
  cbn [TelemetryCreate.satelliteId TelemetryCreate.altitude
       TelemetryCreate.velocity].
  now rewrite Hsat, Halt, Hvel.
Qed.

Lemma post_route_model (body : Body.t) (m : TelemetryCreate.t) (s : State) :
  body_errors body = [] -> body_model body = Some m ->
  post_route body s = post_telemetry m s.
Proof.
  intros He Hm.
  destruct (body_errors_nil body He)
    as (sat & ts & alt & vel & st & status & _ & _ & Hm' & Hv).
  rewrite Hm in Hm'. injection Hm' as ->.
  unfold post_route, post_telemetry. now rewrite He, Hm, Hv.
Qed.











(* ================================================================= *)
(** ** Invariants of the table along the runs of the API *)

(** X5: whatever requests are served from an empty table, every row of the
    table has a satelliteId of at most 64 characters, an altitude above
    zero and a velocity above zero. *)
Theorem reachable_rows_valid (s0 s : State) :
  rows s0 = [] ->
  reachable s0 s ->
  forall r,
    In r (rows s) ->
    len (Telemetry.satelliteId r) <= 64 /\
    float_gt (Telemetry.altitude r) float_zero = true /\
    float_gt (Telemetry.velocity r) float_zero = true.
Proof.
  intros H0 Hreach. induction Hreach as [| s req Hreach IH].
  - rewrite H0. intros r [].
  - intros r Hr.
    destruct req as [body | sat st params | i | i]; cbn [handle] in Hr.
    + destruct (TelemetryCreate_validate body) as [| e es] eqn:Hv.
      * rewrite (post_telemetry_valid body s Hv) in Hr. cbn [snd rows] in Hr.
        apply in_app_or in Hr. destruct Hr as [Hr | [<- | []]];
          [now apply IH |].
        apply validate_nil in Hv. exact Hv.
      * rewrite post_telemetry_invalid in Hr by (rewrite Hv; discriminate).
        now apply IH.
    + now apply IH.
    + rewrite get_telemetry_state in Hr. now apply IH.
    + rewrite delete_telemetry_eval in Hr. cbn [snd rows] in Hr.
      apply filter_In in Hr. now apply IH.
Qed.

Lemma reachable_rows_valid_witness :
  rows empty_db = [] /\
  reachable empty_db (run [POST body_example; POST body_zero_altitude]
                        empty_db) /\
  forall r,
    In r (rows (run [POST body_example; POST body_zero_altitude] empty_db)) ->
    float_gt (Telemetry.altitude r) float_zero = true.
Proof.
  assert (H0 : rows empty_db = []) by reflexivity.
  assert (Hreach : reachable empty_db
                     (run [POST body_example; POST body_zero_altitude]
                        empty_db))
    by (apply reachable_step, reachable_step, reachable_init).
  split; [exact H0 |]. split; [exact Hreach |].
  intros r Hr.
  apply (reachable_rows_valid empty_db _ H0 Hreach r Hr).
Defined.

Lemma fold_max_le_bound (l : list Z) (a b : Z) :
  a <= b -> Forall (fun x => x <= b) l -> fold_left Z.max l a <= b.
Proof.
  revert a. induction l as [| x l IH]; intros a Ha Hl; [exact Ha |].
  apply Forall_cons_iff in Hl. destruct Hl as [Hx Hl].
  cbn [fold_left]. apply IH; [lia | exact Hl].
Qed.

(** The id after an INSERT of a row above all others is one more than that
    row's id. *)
Lemma next_id_app_above (t : list Telemetry.t) (r : Telemetry.t) :
  (forall x, In x t -> Telemetry.id x < Telemetry.id r) ->
  next_id (t ++ [r]) = 1 + Telemetry.id r.
Proof.
  intros Habove. unfold next_id. rewrite map_app. cbn [map].
  destruct (map Telemetry.id t) as [| i rest] eqn:E; [reflexivity |].
  cbn [app]. rewrite fold_left_app. cbn [fold_left].
  assert (Hall : Forall (fun x => x <= Telemetry.id r) (i :: rest)).
  { rewrite <- E. apply Forall_forall. intros x Hx.
    apply in_map_iff in Hx. destruct Hx as (y & <- & Hy).
    specialize (Habove y Hy). lia. }
  apply Forall_cons_iff in Hall. destruct Hall as [Hi Hrest].
  pose proof (fold_max_le_bound rest i _ Hi Hrest). lia.
Qed.

Lemma next_id_positive (t : list Telemetry.t) :
  Forall (fun x => 1 <= x) (map Telemetry.id t) -> 1 <= next_id t.
Proof.
  unfold next_id. destruct (map Telemetry.id t) as [| i rest]; [lia |].
  intros H. apply Forall_cons_iff in H. destruct H as [Hi _].
  destruct (fold_max_ge rest i) as [H1 _]. lia.
Qed.

Lemma StronglySorted_lt_filter (c : Telemetry.t -> bool)
    (t : list Telemetry.t) :
  StronglySorted Z.lt (map Telemetry.id t) ->
  StronglySorted Z.lt (map Telemetry.id (filter c t)).
Proof.
  induction t as [| x t IH]; intros Hs; [constructor |].
  cbn [map] in Hs. apply StronglySorted_inv in Hs. destruct Hs as [Ht Hx].
  cbn [filter]. destruct (c x); [| now apply IH].
  cbn [map]. constructor; [now apply IH |].
  rewrite Forall_forall in *. intros y Hy. apply Hx.
  apply in_map_iff in Hy. destruct Hy as (r & <- & Hr).
  apply filter_In in Hr. apply in_map. apply Hr.
Qed.

Lemma StronglySorted_lt_app_above (l : list Z) (a : Z) :
  StronglySorted Z.lt l -> Forall (fun x => x < a) l ->
  StronglySorted Z.lt (l ++ [a]).
Proof.
  induction l as [| x l IH]; intros Hs Ha.
  - cbn. constructor; constructor.
  - apply StronglySorted_inv in Hs. destruct Hs as [Hl Hx].
    apply Forall_cons_iff in Ha. destruct Ha as [Hxa Hla].
    cbn [app]. constructor; [now apply IH |].
    apply Forall_app. split; [exact Hx |]. constructor; [exact Hxa |].
    constructor.
Qed.

(** X6: whatever requests are served from an empty table, the ids of the
    table are at least 1 and stand in strictly ascending order, so no two
    rows share an id. *)
Theorem reachable_ids_ascending (s0 s : State) :
  rows s0 = [] ->
  reachable s0 s ->
  StronglySorted Z.lt (map Telemetry.id (rows s)) /\
  Forall (fun i => 1 <= i) (map Telemetry.id (rows s)) /\
  NoDup (map Telemetry.id (rows s)).
Proof.
  intros H0 Hreach.
  assert (Hinv : StronglySorted Z.lt (map Telemetry.id (rows s)) /\
                 Forall (fun i => 1 <= i) (map Telemetry.id (rows s))).
  { induction Hreach as [| s req Hreach IH].
    - rewrite H0. split; constructor.
    - destruct IH as [Hsorted Hpos].
      destruct req as [body | sat st params | i | i]; cbn [handle].
      + destruct (post_telemetry_cases body s) as [-> | ->];
          [| now split].
        cbn [snd rows]. rewrite map_app. cbn [map]. split.
        * apply StronglySorted_lt_app_above; [exact Hsorted |].
          apply Forall_forall. intros x Hx. apply in_map_iff in Hx.
          destruct Hx as (r & <- & Hr). now apply next_id_above.
        * apply Forall_app. split; [exact Hpos |].
          constructor; [| constructor].
          now apply next_id_positive.
      + now split.
      + rewrite get_telemetry_state. now split.
      + rewrite delete_telemetry_eval. cbn [snd rows]. split.
        * now apply StronglySorted_lt_filter.
        * rewrite Forall_forall in *. intros x Hx. apply Hpos.
          apply in_map_iff in Hx. destruct Hx as (r & <- & Hr).
          apply filter_In in Hr. apply in_map. apply Hr. }
  destruct Hinv as [Hsorted Hpos].
  split; [exact Hsorted |]. split; [exact Hpos |].
  now apply (reachable_primary_key s0 s).
Qed.

Lemma reachable_ids_ascending_witness :
  rows empty_db = [] /\
  reachable empty_db
    (run [POST body_example; POST body_example; DELETE 1; POST body_example]
       empty_db) /\
  map Telemetry.id
    (rows (run [POST body_example; POST body_example; DELETE 1;
                POST body_example] empty_db)) = [2; 3] /\
  NoDup (map Telemetry.id
           (rows (run [POST body_example; POST body_example; DELETE 1;
                       POST body_example] empty_db))).
Proof.
  assert (H0 : rows empty_db = []) by reflexivity.
  assert (Hreach : reachable empty_db
                     (run [POST body_example; POST body_example; DELETE 1;
                           POST body_example] empty_db))
    by (do 4 apply reachable_step; apply reachable_init).
  split; [exact H0 |]. split; [exact Hreach |]. split; [reflexivity |].
  apply (reachable_ids_ascending empty_db _ H0 Hreach).
Defined.

(* ================================================================= *)
(** ** How creates and deletes compose *)

(** X7: two creates in a row get two ids in a row. *)
Theorem consecutive_creates_consecutive_ids
    (body1 body2 : TelemetryCreate.t) (s : State) :
  TelemetryCreate_validate body1 = [] ->
  TelemetryCreate_validate body2 = [] ->
  exists r1 s1 r2 s2,
    post_telemetry body1 s = (Ok200 r1, s1) /\
    post_telemetry body2 s1 = (Ok200 r2, s2) /\
    Telemetry.id r2 = Telemetry.id r1 + 1 /\
    rows s2 = (rows s ++ [r1; r2])%list.
Proof.
  intros Hv1 Hv2.
  eexists. eexists. eexists. eexists.
  split; [apply (post_telemetry_valid body1 s Hv1) |].
  split; [apply (post_telemetry_valid body2 _ Hv2) |].
  cbn [rows inserted_row Telemetry.id].
  split.
  - change (next_id (rows s)) with (Telemetry.id (inserted_row body1 s)).
    rewrite next_id_app_above; [lia |].
    intros x Hx. now apply next_id_above.
  - now rewrite <- app_assoc.
Qed.

Lemma consecutive_creates_consecutive_ids_witness :
  TelemetryCreate_validate body_example = [] /\
  TelemetryCreate_validate body_id_64 = [] /\
  exists r1 s1 r2 s2,
    post_telemetry body_example empty_db = (Ok200 r1, s1) /\
    post_telemetry body_id_64 s1 = (Ok200 r2, s2) /\
    Telemetry.id r2 = Telemetry.id r1 + 1.
Proof.
  assert (Hv1 : TelemetryCreate_validate body_example = []) by reflexivity.
  assert (Hv2 : TelemetryCreate_validate body_id_64 = []) by reflexivity.
  split; [exact Hv1 |]. split; [exact Hv2 |].
  destruct (consecutive_creates_consecutive_ids body_example body_id_64
              empty_db Hv1 Hv2)
    as (r1 & s1 & r2 & s2 & H1 & H2 & Hid & _).
  exists r1, s1, r2, s2. repeat split; assumption.
Defined.

Lemma filter_negb_id_app_new (t : list Telemetry.t) (r : Telemetry.t) :
  (forall x, In x t -> Telemetry.id x < Telemetry.id r) ->
  filter (fun x => negb (id_eq (Telemetry.id r) x)) (t ++ [r]) = t.
Proof.
  intros Habove. rewrite filter_app. cbn [filter]. unfold id_eq at 2.
  rewrite Z.eqb_refl. cbn [negb]. rewrite app_nil_r.
  apply filter_negb_id_noop. intros (x & Hx & Hid).
  specialize (Habove x Hx). lia.
Qed.

(** X8: an id is given again once the row that had it is gone, when that
    row was the newest: create, delete what was created, create again, and
    the second record has the id of the first. The table in between is the
    table before the first create. *)
Theorem id_reused_after_delete
    (body1 body2 : TelemetryCreate.t) (s : State) :
  TelemetryCreate_validate body1 = [] ->
  TelemetryCreate_validate body2 = [] ->
  exists r1 s1 s2 r2 s3,
    post_telemetry body1 s = (Ok200 r1, s1) /\
    delete_telemetry (Telemetry.id r1) s1 =
      (Ok200 (DeleteResponse.mk (Telemetry.id r1)
                "Telemetry record deleted successfully"), s2) /\
    rows s2 = rows s /\
    post_telemetry body2 s2 = (Ok200 r2, s3) /\
    Telemetry.id r2 = Telemetry.id r1.
Proof.
  intros Hv1 Hv2.
  assert (Habove : forall x, In x (rows s) ->
                     Telemetry.id x < Telemetry.id (inserted_row body1 s))
    by (intros x Hx; now apply next_id_above).
  exists (inserted_row body1 s). eexists.
  exists (mkState (rows s) (clock s) (S (S (reads s)))).
  eexists. eexists.
  split; [apply (post_telemetry_valid body1 s Hv1) |].
  split.
  { rewrite delete_telemetry_eval. cbn [rows clock reads].
    rewrite (filter_negb_id_app_new _ _ Habove).
    rewrite filter_app. cbn [filter]. unfold id_eq at 2.
    rewrite Z.eqb_refl. rewrite length_app. cbn [List.length].
    destruct (Z.eqb_spec
                (Z.of_nat (List.length
                   (filter (id_eq (Telemetry.id (inserted_row body1 s)))
                      (rows s)) + 1)) 0); [lia | reflexivity]. }
  split; [reflexivity |].
  split; [apply (post_telemetry_valid body2 _ Hv2) |].
  reflexivity.
Qed.

Lemma id_reused_after_delete_witness :
  TelemetryCreate_validate body_example = [] /\
  TelemetryCreate_validate body_id_64 = [] /\
  exists r1 s1 s2 r2 s3,
    post_telemetry body_example empty_db = (Ok200 r1, s1) /\
    delete_telemetry (Telemetry.id r1) s1 =
      (Ok200 (DeleteResponse.mk (Telemetry.id r1)
                "Telemetry record deleted successfully"), s2) /\
    post_telemetry body_id_64 s2 = (Ok200 r2, s3) /\
    Telemetry.id r2 = Telemetry.id r1.
Proof.
  assert (Hv1 : TelemetryCreate_validate body_example = []) by reflexivity.
  assert (Hv2 : TelemetryCreate_validate body_id_64 = []) by reflexivity.
  split; [exact Hv1 |]. split; [exact Hv2 |].
  destruct (id_reused_after_delete body_example body_id_64 empty_db Hv1 Hv2)
    as (r1 & s1 & s2 & r2 & s3 & H1 & H2 & _ & H3 & H4).
  exists r1, s1, s2, r2, s3. repeat split; assumption.
Defined.


Lemma filter_filter_and (f g : Telemetry.t -> bool) (l : list Telemetry.t) :
  filter f (filter g l) = filter (fun x => g x && f x) l.
Proof.
  induction l as [| x l IH]; [reflexivity |].
  cbn [filter]. destruct (g x); cbn [andb filter]; now rewrite IH.
Qed.

Lemma run_deletes_rows (ids : list Z) (s : State) :
  run (map DELETE ids) s =
  mkState (filter (fun r => negb (id_in ids (Telemetry.id r))) (rows s))
    (clock s) (reads s).
Proof.
  revert s. induction ids as [| i ids IH]; intros s.
  - cbn. rewrite filter_true. now destruct s.
  - cbn [map run fold_left]. fold (run (map DELETE ids)).
    cbn [handle]. rewrite IH, delete_telemetry_eval.
    cbn [snd rows clock reads].
    f_equal. rewrite filter_filter_and. apply filter_ext.
    intros r. unfold id_in, id_eq. cbn [existsb].
    now rewrite negb_orb.
Qed.

Lemma id_in_perm (ids ids' : list Z) (i : Z) :
  Permutation ids ids' -> id_in ids i = id_in ids' i.
Proof.
  intros Hp. unfold id_in.
  destruct (existsb (Z.eqb i) ids) eqn:E;
    destruct (existsb (Z.eqb i) ids') eqn:E'; try reflexivity.
  - apply existsb_exists in E. destruct E as (x & Hx & Hix).
    assert (H : existsb (Z.eqb i) ids' = true).
    { apply existsb_exists. exists x. split; [| exact Hix].
      now apply (Permutation_in _ Hp). }
    congruence.
  - apply existsb_exists in E'. destruct E' as (x & Hx & Hix).
    assert (H : existsb (Z.eqb i) ids = true).
    { apply existsb_exists. exists x. split; [| exact Hix].
      apply (Permutation_in _ (Permutation_sym Hp)). exact Hx. }
    congruence.
Qed.

(** X10: a run of DELETE requests leaves the rows whose id is none of the
    ids asked for, each where it was, and the same state in whatever order
    the requests are served. *)
Theorem deletes_commute (ids ids' : list Z) (s : State) :
  Permutation ids ids' ->
  run (map DELETE ids) s = run (map DELETE ids') s /\
  rows (run (map DELETE ids) s) =
    filter (fun r => negb (id_in ids (Telemetry.id r))) (rows s) /\
  (forall r, In r (rows (run (map DELETE ids) s)) <->
             In r (rows s) /\ ~ In (Telemetry.id r) ids).
Proof.
  intros Hp. rewrite !run_deletes_rows. cbn [rows].
  split; [| split].
  - f_equal. apply filter_ext. intros r. f_equal. now apply id_in_perm.
  - reflexivity.
  - intros r. rewrite filter_In. unfold id_in. split.
    + intros [Hin Hc]. split; [exact Hin |]. intros Hid.
      assert (H : existsb (Z.eqb (Telemetry.id r)) ids = true).
      { apply existsb_exists. exists (Telemetry.id r).
        split; [exact Hid | apply Z.eqb_refl]. }
      rewrite H in Hc. discriminate.
    + intros [Hin Hnot]. split; [exact Hin |].
      destruct (existsb (Z.eqb (Telemetry.id r)) ids) eqn:E;
        [| reflexivity].
      apply existsb_exists in E. destruct E as (x & Hx & Hix).
      apply Z.eqb_eq in Hix. subst x. contradiction.
Qed.

Lemma deletes_commute_witness :
  Permutation [1; 3] [3; 1] /\
  run (map DELETE [1; 3]) db_three = run (map DELETE [3; 1]) db_three /\
  map Telemetry.id (rows (run (map DELETE [1; 3]) db_three)) = [2].
Proof.
  assert (Hp : Permutation [1; 3] [3; 1]) by apply perm_swap.
  split; [exact Hp |].
  destruct (deletes_commute [1; 3] [3; 1] db_three Hp) as (Heq & Hrows & _).
  split; [exact Heq |]. rewrite Hrows. reflexivity.
Defined.

(* ================================================================= *)
(** ** Totals and pages *)

Lemma list_total (satelliteId : option string)
    (status : option TelemetryStatus) (params : Params.t) (s : State) :
  exists items,
    list_satellites satelliteId status params s =
    (Ok200 (Page.mk items
              (Z.of_nat (List.length
                 (filter (filter_matches satelliteId status) (rows s))))
              (Params.page params) (Params.size params)), s).
Proof.
  eexists. rewrite list_satellites_page.
  rewrite (Permutation_length (result_sequence_perm _ _ _)). reflexivity.
Qed.

(** X11: a create raises the total of a list query by one when the new
    record meets the filters of the query, and leaves it alone when it does
    not, whatever page and size the query is asked with. *)
Theorem total_after_create
    (body : TelemetryCreate.t) (s : State)
    (satelliteId : option string) (status : option TelemetryStatus)
    (params params' : Params.t) :
  TelemetryCreate_validate body = [] ->
  exists record s' pg pg',
    post_telemetry body s = (Ok200 record, s') /\
    list_satellites satelliteId status params s = (Ok200 pg, s) /\
    list_satellites satelliteId status params' s' = (Ok200 pg', s') /\
    Page.total pg' =
      Page.total pg +
      (if filter_matches satelliteId status record then 1 else 0).
Proof.
  intros Hv.
  destruct (list_total satelliteId status params s) as (items & Hl).
  destruct (list_total satelliteId status params'
              (mkState (rows s ++ [inserted_row body s]) (clock s)
                 (S (S (reads s))))) as (items' & Hl').
  eexists. eexists. eexists. eexists.
  split; [apply (post_telemetry_valid body s Hv) |].
  split; [exact Hl |]. split; [exact Hl' |].
  cbn [Page.total rows]. rewrite filter_app, length_app. cbn [filter].
  destruct (filter_matches satelliteId status (inserted_row body s));
    cbn [List.length]; lia.
Qed.

Lemma total_after_create_witness :
  TelemetryCreate_validate body_example = [] /\
  exists record s' pg pg',
    post_telemetry body_example db_three = (Ok200 record, s') /\
    list_satellites None (Some HEALTHY) (Params.mk 1 1) db_three =
      (Ok200 pg, db_three) /\
    list_satellites None (Some HEALTHY) (Params.mk 1 50) s' =
      (Ok200 pg', s') /\
    Page.total pg = 1 /\ Page.total pg' = 2.
Proof.
  assert (Hv : TelemetryCreate_validate body_example = []) by reflexivity.
  split; [exact Hv |].
  destruct (total_after_create body_example db_three None (Some HEALTHY)
              (Params.mk 1 1) (Params.mk 1 50) Hv)
    as (record & s' & pg & pg' & Hpost & Hl & Hl' & Htotal).
  exists record, s', pg, pg'.
  split; [exact Hpost |]. split; [exact Hl |]. split; [exact Hl' |].
  assert (Hpg : Page.total pg = 1).
  { assert (H : Ok200 pg =
                fst (list_satellites None (Some HEALTHY) (Params.mk 1 1)
                       db_three)) by (rewrite Hl; reflexivity).
    injection H as ->. reflexivity. }
  split; [exact Hpg |]. rewrite Htotal, Hpg.
  assert (Hrec : Ok200 record = fst (post_telemetry body_example db_three))
    by (rewrite Hpost; reflexivity).
  injection Hrec as ->. reflexivity.
Defined.

Lemma filter_without_id (c : Telemetry.t -> bool) (i : Z)
    (t : list Telemetry.t) (r : Telemetry.t) :
  NoDup (map Telemetry.id t) ->
  find (fun x => Telemetry.id x =? i) t = Some r ->
  List.length (filter c t) =
  (List.length (filter c (filter (fun x => negb (id_eq i x)) t)) +
   (if c r then 1 else 0))%nat.
Proof.
  induction t as [| x t IH]; intros Hnd Hf; [discriminate |].
  cbn [map] in Hnd. apply NoDup_cons_iff in Hnd. destruct Hnd as [Hx Hnd].
  cbn [find] in Hf. cbn [filter]. unfold id_eq at 1.
  destruct (Z.eqb_spec (Telemetry.id x) i) as [E | N]; cbn [negb].
  - injection Hf as <-.
    rewrite filter_negb_id_noop.
    + destruct (c x); cbn [List.length]; lia.
    + intros (y & Hy & Hid). apply Hx. rewrite E, <- Hid. now apply in_map.
  - cbn [filter]. specialize (IH Hnd Hf).
    destruct (c x); cbn [List.length]; lia.
Qed.

(** X12: under a unique primary key, a delete lowers the total of a list
    query by one when the record that goes met the filters of the query,
    and leaves it alone when it did not. *)
Theorem total_after_delete
    (i : Z) (r : Telemetry.t) (s : State)
    (satelliteId : option string) (status : option TelemetryStatus)
    (params params' : Params.t) :
  NoDup (map Telemetry.id (rows s)) ->
  get_telemetry i s = (Ok200 r, s) ->
  exists resp s' pg pg',
    delete_telemetry i s = (Ok200 resp, s') /\
    list_satellites satelliteId status params s = (Ok200 pg, s) /\
    list_satellites satelliteId status params' s' = (Ok200 pg', s') /\
    Page.total pg' =
      Page.total pg -
      (if filter_matches satelliteId status r then 1 else 0).
Proof.
  intros Hnd Hget. rewrite get_telemetry_find in Hget.
  destruct (find _ (rows s)) as [r0 |] eqn:Hf; [| discriminate].
  injection Hget as ->.
  destruct (list_total satelliteId status params s) as (items & Hl).
  destruct (list_total satelliteId status params'
              (mkState (filter (fun x => negb (id_eq i x)) (rows s))
                 (clock s) (reads s))) as (items' & Hl').
  assert (Hpresent : present i (rows s)).
  { apply find_some in Hf. destruct Hf as [Hin Hid].
    exists r. split; [exact Hin | now apply Z.eqb_eq]. }
  eexists. eexists. eexists. eexists.
  split.
  { rewrite delete_telemetry_eval.
    destruct (Z.eqb_spec
                (Z.of_nat (List.length (filter (id_eq i) (rows s)))) 0)
      as [E | _]; [| reflexivity].
    exfalso. apply (proj1 (filter_id_nil i (rows s))); [| exact Hpresent].
    destruct (filter (id_eq i) (rows s)); [reflexivity | cbn in E; lia]. }
  split; [exact Hl |]. split; [exact Hl' |].
  cbn [Page.total rows].
  rewrite (filter_without_id (filter_matches satelliteId status) i
             (rows s) r Hnd Hf).
  destruct (filter_matches satelliteId status r); lia.
Qed.

Lemma total_after_delete_witness :
  NoDup (map Telemetry.id (rows db_three)) /\
  exists r resp s' pg',
    get_telemetry 2 db_three = (Ok200 r, db_three) /\
    delete_telemetry 2 db_three = (Ok200 resp, s') /\
    list_satellites None (Some CRITICAL) (Params.mk 1 50) s' =
      (Ok200 pg', s') /\
    Page.total pg' = 1.
Proof.
  assert (Hnd : NoDup (map Telemetry.id (rows db_three))).
  { apply NoDup_cons; [cbn; intros [H | [H | []]]; discriminate |].
    apply NoDup_cons; [cbn; intros [H | []]; discriminate |].
    apply NoDup_cons; [intros [] | apply NoDup_nil]. }
  split; [exact Hnd |].
  eexists.
  assert (Hget : get_telemetry 2 db_three =
                 (Ok200 (nth 1 (rows db_three) (inserted_row body_example
                                                  empty_db)), db_three))
    by reflexivity.
  destruct (total_after_delete 2 _ db_three None (Some CRITICAL)
              (Params.mk 1 50) (Params.mk 1 50) Hnd Hget)
    as (resp & s' & pg & pg' & Hdel & Hl & Hl' & Htotal).
  exists resp, s', pg'.
  split; [exact Hget |]. split; [exact Hdel |]. split; [exact Hl' |].
  rewrite Htotal.
  assert (H : Ok200 pg =
              fst (list_satellites None (Some CRITICAL) (Params.mk 1 50)
                     db_three)) by (rewrite Hl; reflexivity).
  injection H as ->. reflexivity.
Defined.


(* ================================================================= *)
(** ** The list route and its clients *)


Lemma query_errors_nil (satelliteId status : option string) :
  query_errors satelliteId status = [] <->
  (forall v, satelliteId = Some v -> len v <= 64) /\
  (forall v, status = Some v -> v = "healthy" \/ v = "critical").
Proof.
  unfold query_errors. split.
  - intros He. apply app_eq_nil in He. destruct He as [Hsat Hst]. split.
    + intros v ->. destruct (Z.leb_spec (len v) 64); [lia | discriminate].
    + intros v ->.
      destruct (TelemetryStatus_of_string v) as [st |] eqn:E;
        [| discriminate].
      pose proof TelemetryStatus_of_string_inv as Hback.
      rewrite (Hback v st E). destruct st; auto.
  - intros [Hsat Hst].
    destruct satelliteId as [v |].
    + specialize (Hsat v eq_refl).
      rewrite (proj2 (Z.leb_le _ _) Hsat). cbn [app].
      destruct status as [w |]; [| reflexivity].
      destruct (Hst w eq_refl) as [-> | ->]; reflexivity.
    + cbn [app]. destruct status as [w |]; [| reflexivity].
      destruct (Hst w eq_refl) as [-> | ->]; reflexivity.
Qed.





Lemma len_zero_empty (v : string) : len v = 0 -> v = "".
Proof. destruct v; [reflexivity | unfold len; cbn; lia]. Qed.






(** X17: [get_items] outside the bounds of the API. With a size above 100,
    or a satelliteId above 64 characters, the API answers 422, the first
    round finds no items and the function returns the empty list, whatever
    the table holds. With a size of 0 or less no page is ever shorter than
    the size and the loop does not end. *)
Theorem get_items_out_of_bounds
    (satelliteId status : option string) (size : Z) (s : State) :
  (100 < size -> forall fuel,
      get_items (S fuel) satelliteId status (Some size) s = Some []) /\
  (forall v, satelliteId = Some v -> 64 < len v -> 1 <= size ->
             forall fuel,
               get_items (S fuel) satelliteId status (Some size) s =
               Some []) /\
  (size <= 0 -> forall fuel,
      get_items fuel satelliteId status (Some size) s = None).
Proof.
  unfold get_items.
  split; [| split].
  - intros Hbig fuel. cbn [get_items_loop]. unfold list_route, params_errors.
    cbn [Params.page Params.size].
    destruct (Z.leb_spec size 100); [lia |].
    destruct (query_errors satelliteId status ++ _)%list eqn:E.
    + apply app_eq_nil in E. destruct E as [_ E].
      destruct (1 <=? 1); destruct (1 <=? size); discriminate.
    + cbn. destruct (Z.ltb_spec 0 size); [reflexivity | lia].
  - intros v -> Hlen Hsize fuel. cbn [get_items_loop].
    unfold list_route, query_errors.
    destruct (Z.leb_spec (len v) 64); [lia |].
    cbn. destruct (Z.ltb_spec 0 size); [reflexivity | lia].
  - intros Hsize fuel. generalize (@nil Telemetry.t). generalize 1.
    induction fuel as [| fuel IH]; intros page collected; [reflexivity |].
    cbn [get_items_loop].
    destruct (Z.ltb_spec
                (Z.of_nat (List.length
                   (items_of (fst (list_route satelliteId status
                                     (Params.mk page size) s))))) size);
      [lia | apply IH].
Qed.

(* ================================================================= *)
(** ** The generators of the load test *)

Lemma length_append_string (a b : string) :
  String.length (String.append a b) =
  (String.length a + String.length b)%nat.
Proof. induction a as [| c a IH]; cbn; [reflexivity | now rewrite IH]. Qed.

Lemma append_inv_head (p a b : string) :
  String.append p a = String.append p b -> a = b.
Proof.
  induction p as [| c p IH]; cbn; [trivial |]. intros [= H]. now apply IH.
Qed.

Lemma length_repeat_char (c : ascii) (n : nat) :
  String.length (repeat_char c n) = n.
Proof. induction n as [| n IH]; cbn; [reflexivity | now rewrite IH]. Qed.

Lemma uint_of_zeros (n : nat) (text : string) :
  option_map Nat.of_uint
    (DecimalString.NilEmpty.uint_of_string
       (String.append (repeat_char "0" n) text)) =
  option_map Nat.of_uint (DecimalString.NilEmpty.uint_of_string text).
Proof.
  induction n as [| n IH]; [reflexivity |].
  cbn [repeat_char String.append DecimalString.NilEmpty.uint_of_string].
  destruct (DecimalString.NilEmpty.uint_of_string
              (String.append (repeat_char "0" n) text)) as [d |];
    destruct (DecimalString.NilEmpty.uint_of_string text) as [d' |];
    cbn in *; try discriminate; try reflexivity.
  exact IH.
Qed.

Lemma format_03d_parses (i : nat) :
  int_of_digits (format_03d i) = Some i.
Proof.
  unfold int_of_digits, format_03d. rewrite uint_of_zeros.
  unfold decimal. rewrite DecimalString.NilEmpty.usu. cbn [option_map].
  now rewrite DecimalNat.Unsigned.of_to.
Qed.

Lemma format_03d_inj (i j : nat) : format_03d i = format_03d j -> i = j.
Proof.
  intros Heq. pose proof (format_03d_parses i) as Hi.
  rewrite Heq, format_03d_parses in Hi. now injection Hi.
Qed.

Lemma format_03d_length_3 (i : nat) :
  (i < 1000)%nat -> String.length (format_03d i) = 3%nat.
Proof.
  intros Hlt.
  assert (Hall : forallb
                   (fun k => Nat.eqb (String.length (format_03d k)) 3)
                   (seq 0 1000) = true) by (vm_compute; reflexivity).
  rewrite forallb_forall in Hall.
  apply Nat.eqb_eq. apply Hall. apply in_seq. lia.
Qed.

(** X18: the text [f"{i:03d}"] of a number reads back as that number, so
    two numbers never share a text; it has at least three characters, and
    exactly three for a number below 1000. *)
Theorem format_03d_round_trip (i : nat) :
  int_of_digits (format_03d i) = Some i /\
  (3 <= String.length (format_03d i))%nat /\
  ((i < 1000)%nat -> String.length (format_03d i) = 3%nat) /\
  (forall j, format_03d i = format_03d j -> i = j).
Proof.
  split; [apply format_03d_parses |].
  split.
  { unfold format_03d. rewrite length_append_string, length_repeat_char.
    lia. }
  split; [apply format_03d_length_3 |].
  intros j. apply format_03d_inj.
Qed.

Lemma satellite_name_inj (run_id : string) (i j : nat) :
  satellite_name run_id i = satellite_name run_id j -> i = j.
Proof.
  unfold satellite_name. intros H.
  apply append_inv_head, append_inv_head, append_inv_head in H.
  now apply format_03d_inj.
Qed.

Lemma NoDup_map_injective (f : nat -> string) (l : list nat) :
  (forall i j, f i = f j -> i = j) -> NoDup l -> NoDup (map f l).
Proof.
  intros Hinj. induction 1 as [| x l Hx Hnd IH]; cbn; constructor.
  - intros Hin. apply in_map_iff in Hin. destruct Hin as (y & Hy & Hin).
    apply Hinj in Hy. now subst y.
  - exact IH.
Qed.

(** X19: [make_satellite_list] gives [count] names, none when the count is
    0 or less, no two of them equal, the i-th made of the run id and of
    [i]; each begins with [LOAD-], the prefix the cleanup looks for. With a
    run id of 14 characters and a count of at most 1000 each name has 27
    characters, within the 64 the API allows for a satelliteId. *)
Theorem make_satellite_list_names (run_id : string) (count : Z) :
  List.length (make_satellite_list run_id count) = Z.to_nat count /\
  (count <= 0 -> make_satellite_list run_id count = []) /\
  NoDup (make_satellite_list run_id count) /\
  (forall i, (i < Z.to_nat count)%nat ->
             nth_error (make_satellite_list run_id count) i =
             Some (satellite_name run_id i)) /\
  (forall name, In name (make_satellite_list run_id count) ->
                String.prefix "LOAD-" name = true) /\
  (String.length run_id = 14%nat -> count <= 1000 ->
   forall name, In name (make_satellite_list run_id count) ->
                len name = 27 /\ query_errors (Some name) None = []).
Proof.
  unfold make_satellite_list.
  split; [now rewrite length_map, length_seq |].
  split.
  { intros Hc. replace (Z.to_nat count) with 0%nat by lia. reflexivity. }
  split.
  { apply NoDup_map_injective; [apply satellite_name_inj | apply seq_NoDup]. }
  split.
  { intros i Hi. rewrite nth_error_map.
    rewrite (nth_error_nth' _ 0%nat) by (now rewrite length_seq).
    now rewrite seq_nth. }
  split.
  { intros name Hin. apply in_map_iff in Hin. destruct Hin as (i & <- & _).
    unfold satellite_name. cbn.
    now destruct (String.append run_id _). }
  intros Hrun Hcount name Hin.
  apply in_map_iff in Hin. destruct Hin as (i & <- & Hi).
  apply in_seq in Hi.
  assert (Hlen : len (satellite_name run_id i) = 27).
  { unfold len, satellite_name. rewrite !length_append_string, Hrun.
    rewrite format_03d_length_3 by lia.
    reflexivity. }
  split; [exact Hlen |].
  apply query_errors_nil. split; [| discriminate].
  intros v [= <-]. lia.
Qed.

Lemma make_satellite_list_names_witness :
  make_satellite_list "20260214100000" 3 =
    [ "LOAD-20260214100000-SAT-000";
      "LOAD-20260214100000-SAT-001";
      "LOAD-20260214100000-SAT-002" ] /\
  NoDup (make_satellite_list "20260214100000" 3).
Proof.
  split; [reflexivity |].
  apply (make_satellite_list_names "20260214100000" 3).
Defined.

Lemma float_neg_abs_not_gt (x : float) :
  float_gt (float_neg (float_abs x)) float_zero = false.
Proof.
  destruct x as [sx | sx | | sx m e]; reflexivity.
Qed.

Lemma float_le_from_positive (m : positive) (e : Z) (x : float) :
  float_le (S754_finite false m e) x = true ->
  float_gt x float_zero = true.
Proof.
  unfold float_le, float_gt, float_zero, SFleb, SFltb.
  destruct x as [sx | sx | | sx mx ex]; cbn; try discriminate.
  - destruct sx; [discriminate | reflexivity].
  - destruct sx; [discriminate | reflexivity].
Qed.

(** X20: every body [build_payload] makes invalid is refused by the POST
    route, whatever it draws: the answer is 422, the errors name the field
    the error was planted in, and the state stays as it was. *)
Theorem build_payload_invalid_rejected
    (satellite_id : string) (d : Draw) (s : State) :
  post_route (build_payload satellite_id true d) s =
    (RequestValidationError
       (body_errors (build_payload satellite_id true d)), s) /\
  In (match draw_err_type d with
      | negative_velocity => mkError "velocity" "greater_than"
      | bad_status => mkError "status" "enum"
      | long_id => mkError "satelliteId" "string_too_long"
      | missing_ts => mkError "timestamp" "missing"
      | zero_altitude => mkError "altitude" "greater_than"
      end)
     (body_errors (build_payload satellite_id true d)) /\
  status_code_of (fst (post_route (build_payload satellite_id true d) s))
    = 422.
Proof.
  assert (Hin : In (match draw_err_type d with
                    | negative_velocity => mkError "velocity" "greater_than"
                    | bad_status => mkError "status" "enum"
                    | long_id => mkError "satelliteId" "string_too_long"
                    | missing_ts => mkError "timestamp" "missing"
                    | zero_altitude => mkError "altitude" "greater_than"
                    end)
                   (body_errors (build_payload satellite_id true d))).
  { unfold build_payload, body_errors. cbn [negb].
    destruct (draw_err_type d);
      cbn [Body.satelliteId Body.timestamp Body.altitude Body.velocity
           Body.status field_errors].
    - rewrite float_neg_abs_not_gt.
      do 3 (apply in_or_app; right). apply in_or_app. left. now left.
    - do 4 (apply in_or_app; right). now left.
    - apply in_or_app. left.
      destruct (Z.leb_spec
                  (len (String.append satellite_id
                          (String.append "-" (repeat_char "X" 100)))) 64)
        as [Hle | _]; [| now left].
      exfalso. unfold len in Hle.
      rewrite !length_append_string, length_repeat_char in Hle.
      cbn [String.length] in Hle. lia.
    - apply in_or_app. right. apply in_or_app. left. now left.
    - do 2 (apply in_or_app; right). apply in_or_app. left. now left. }
  assert (Hne : body_errors (build_payload satellite_id true d) <> []).
  { intros He. rewrite He in Hin. contradiction. }
  rewrite (post_route_errors _ s Hne).
  split; [reflexivity |]. split; [exact Hin | reflexivity].
Qed.

(** X21: a body [build_payload] makes without planting an error is
    accepted by the POST route when the satelliteId has at most 64
    characters and altitude and velocity are within the bounds they are
    drawn from: the answer is 200 and the record stored has the satelliteId
    and the values drawn. *)
Theorem build_payload_valid_accepted
    (satellite_id : string) (d : Draw) (s : State) :
  len satellite_id <= 64 ->
  altitude_drawn (draw_altitude d) ->
  velocity_drawn (draw_velocity d) ->
  exists record s',
    post_route (build_payload satellite_id false d) s = (Ok200 record, s') /\
    In record (rows s') /\
    Telemetry.satelliteId record = satellite_id /\
    Telemetry.timestamp record = draw_ts d /\
    Telemetry.altitude record = draw_altitude d /\
    Telemetry.velocity record = draw_velocity d /\
    Telemetry.status record = draw_status d.
Proof.
  intros Hlen [Halt _] [Hvel _].
  assert (Ha : float_gt (draw_altitude d) float_zero = true).
  { revert Halt. apply (float_le_from_positive 5629499534213120 (-45)). }
  assert (Hv : float_gt (draw_velocity d) float_zero = true).
  { revert Hvel. apply (float_le_from_positive 4503599627370496 (-53)). }
  set (m := TelemetryCreate.mk satellite_id (draw_ts d) (draw_altitude d)
              (draw_velocity d) (draw_status d)).
  assert (Hvalid : TelemetryCreate_validate m = []).
  { apply validate_nil. repeat split; assumption. }
  assert (Herr : body_errors (build_payload satellite_id false d) = []).
  { unfold build_payload, body_errors. cbn [negb].
    cbn [Body.satelliteId Body.timestamp Body.altitude Body.velocity
         Body.status field_errors].
    rewrite (proj2 (Z.leb_le _ _) Hlen), Ha, Hv.
    pose proof TelemetryStatus_of_value as Hto.
    now rewrite Hto. }
  assert (Hmodel : body_model (build_payload satellite_id false d) = Some m).
  { unfold build_payload, body_model. cbn [negb].
    cbn [Body.satelliteId Body.timestamp Body.altitude Body.velocity
         Body.status].
    pose proof TelemetryStatus_of_value as Hto.
    now rewrite Hto. }
  rewrite (post_route_model _ m s Herr Hmodel).
  rewrite (post_telemetry_valid m s Hvalid).
  eexists. eexists. split; [reflexivity |].
  split; [cbn [rows]; apply in_or_app; right; now left |].
  repeat split.
Qed.

Lemma build_payload_valid_accepted_witness :
  len "LOAD-20260214100000-SAT-000" <= 64 /\
  altitude_drawn (float_of_Z 550) /\
  velocity_drawn (float_ratio 76 10) /\
  exists record s',
    post_route
      (build_payload "LOAD-20260214100000-SAT-000" false
         (mkDraw (float_of_Z 550) (float_ratio 76 10) CRITICAL
            1771063200000000 long_id))
      empty_db = (Ok200 record, s') /\
    Telemetry.status record = CRITICAL.
Proof.
  assert (Hlen : len "LOAD-20260214100000-SAT-000" <= 64)
    by (vm_compute; discriminate).
  assert (Ha : altitude_drawn (float_of_Z 550))
    by (split; vm_compute; reflexivity).
  assert (Hv : velocity_drawn (float_ratio 76 10))
    by (split; vm_compute; reflexivity).
  split; [exact Hlen |]. split; [exact Ha |]. split; [exact Hv |].
  destruct (build_payload_valid_accepted "LOAD-20260214100000-SAT-000"
              (mkDraw (float_of_Z 550) (float_ratio 76 10) CRITICAL
                 1771063200000000 long_id) empty_db Hlen Ha Hv)
    as (record & s' & Hpost & _ & _ & _ & _ & _ & Hst).
  exists record, s'. split; assumption.
Defined.

